(** * QL rows and row blocks: the CQL wire framing of [ql_rowblock.cc]

    A shallow embedding of [QLRow] and [QLRowBlock] (file
    [src/yb/common/ql_rowblock.cc]) and the properties of the block-level
    framing: the 4-byte row-count prefix, the trailing-bytes check of
    [Deserialize], the row-count peek and the byte-level merge
    [AppendRowsData].

    Buffers ([faststring], [std::string], [Slice]) are lists of bytes.
    Fixed-width integers are [Z] with the conversions written out.
    A function that returns [Status] and mutates its arguments returns the
    status together with the final value of what it mutates. *)

From Stdlib Require Import ZArith Lia String.
From Stdlib Require Import Strings.Byte.
From stdpp Require Import base list.

Local Open Scope Z_scope.

(** ** Bytes and fixed-width integers *)

Definition bytes := list byte.

Definition byte_to_Z (b : byte) : Z := Z.of_N (Byte.to_N b).

(** [static_cast<uint8_t>]: the low eight bits. *)
Definition byte_of_Z (z : Z) : byte :=
  match Byte.of_N (Z.to_N (z mod 256)) with
  | Some b => b
  | None => x00
  end.

Definition INT32_MAX : Z := 2147483647.
Definition INT32_MIN : Z := -2147483648.

(** [static_cast<uint32_t>]. *)
Definition to_uint32 (z : Z) : Z := z mod 2 ^ 32.

(** [static_cast<int32_t>]: reduction modulo 2^32 into the signed range. *)
Definition to_int32 (z : Z) : Z :=
  let u := z mod 2 ^ 32 in
  if u <? 2 ^ 31 then u else u - 2 ^ 32.

(** [static_cast<size_t>] on a 64-bit target. *)
Definition to_size_t (z : Z) : Z := z mod 2 ^ 64.

(** [int32_t] addition ([dst_cnt += src_cnt]).  The sum is reduced into the
    signed 32-bit range: the code has no overflow check, and the wrap-around
    of the two's-complement target is what is written out here. *)
Definition int32_add (a b : Z) : Z := to_int32 (a + b).

(** ** Status and abnormal termination *)

Inductive StatusCode :=
| Corruption
| MalformedInput
| OtherCode (n : nat).

Inductive Status :=
| OK
| Error (code : StatusCode) (msg : string).

Definition status_ok (s : Status) : bool :=
  match s with
  | OK => true
  | Error _ _ => false
  end.

(** What ends a call without a return value: a failed [CHECK_EQ] aborts the
    process, and [std::vector::at] throws [std::out_of_range]. *)
Inductive Failure :=
| CheckFailed
| OutOfRange.

Inductive Outcome (A : Type) :=
| Returns (a : A)
| Fails (f : Failure).

Arguments Returns {A} a.
Arguments Fails {A} f.

Definition obind {A B} (m : Outcome A) (k : A -> Outcome B) : Outcome B :=
  match m with
  | Returns a => k a
  | Fails f => Fails f
  end.

Notation "x <- m ;; k" := (obind m (fun x => k))
  (at level 20, m at level 99, k at level 200, only parsing).
Notation "' p <- m ;; k" := (obind m (fun x => match x with p => k end))
  (at level 20, p pattern, m at level 99, k at level 200, only parsing).

(** The client dialect.  Only [YQL_CLIENT_CQL] is named in the file; every
    other enumerator is a value the [CHECK_EQ]s reject. *)
Inductive QLClient :=
| YQL_CLIENT_CQL
| YQL_CLIENT_OTHER (n : nat).

Definition is_cql (client : QLClient) : bool :=
  match client with
  | YQL_CLIENT_CQL => true
  | YQL_CLIENT_OTHER _ => false
  end.

(** [CHECK_EQ(client, YQL_CLIENT_CQL)]. *)
Definition CHECK_EQ_CQL (client : QLClient) : Outcome unit :=
  if is_cql client then Returns tt else Fails CheckFailed.

(** ** The count prefix *)

(** Modelled from the spec: [NetworkByteOrder::Store32] is defined outside
    [ql_rowblock.cc]; the spec fixes the count as a 4-byte big-endian
    integer, most significant byte first. *)
Definition Store32 (v : Z) : bytes :=
  [byte_of_Z (v / 2 ^ 24); byte_of_Z (v / 2 ^ 16); byte_of_Z (v / 2 ^ 8);
   byte_of_Z v].

(** Modelled from the spec: [NetworkByteOrder::Load32], defined outside
    [ql_rowblock.cc]: the big-endian reading of four bytes as an unsigned
    32-bit integer. *)
Definition Load32 (b0 b1 b2 b3 : byte) : Z :=
  byte_to_Z b0 * 2 ^ 24 + byte_to_Z b1 * 2 ^ 16 + byte_to_Z b2 * 2 ^ 8
  + byte_to_Z b3.

(** Modelled from the spec: [CQLEncodeLength(length, faststring* buffer)]
    is defined outside [ql_rowblock.cc]; the spec has it append the 4-byte
    big-endian signed count.  Its parameter is an [int32_t]. *)
Definition CQLEncodeLength (length : Z) (buffer : bytes) : bytes :=
  buffer ++ Store32 (to_uint32 length).

(** Writing [src] over the first bytes of [dst], as a store through a raw
    pointer does.  Bytes that would fall behind the end of [dst] are
    dropped; the callers below never write there. *)
Fixpoint overwrite (src dst : bytes) : bytes :=
  match src, dst with
  | s :: src', _ :: dst' => s :: overwrite src' dst'
  | _, _ => dst
  end.

(** Modelled from the spec: the overload [CQLEncodeLength(length, void*
    buffer)], defined outside [ql_rowblock.cc], which patches the 4-byte
    count in place, here at offset 0 of the string it points into. *)
Definition CQLEncodeLength_at (length : Z) (buffer : bytes) : bytes :=
  overwrite (Store32 (to_uint32 length)) buffer.

(** Modelled from the spec: [CQLDecodeNum(sizeof(int32_t),
    NetworkByteOrder::Load32, data, &val)] is defined outside
    [ql_rowblock.cc].  The spec has it read the 4-byte prefix and return a
    structured error on failure: with fewer than four bytes it returns a
    malformed-input error and leaves [data] and [val] alone; otherwise it
    stores the decoded number and removes the four bytes from [data]. *)
Definition CQLDecodeNum (data : bytes) (val : Z) : Status * Z * bytes :=
  match data with
  | b0 :: b1 :: b2 :: b3 :: rest => (OK, to_int32 (Load32 b0 b1 b2 b3), rest)
  | _ => (Error MalformedInput "Truncated CQL message", val, data)
  end.

(** ** Rows and row blocks

    The value codec ([QLValue::Serialize], [QLValue::Deserialize]), the
    column types and the schema class live outside [ql_rowblock.cc]; the
    development is parametric in them. *)

Section RowBlock.

(** The type tag of a column, as [column_type(col_idx)] returns it. *)
Variable DataType : Type.

Variable QLValue : Type.

(** The default-constructed [QLValue()]. *)
Variable QLValue_default : QLValue.

(** [value.Serialize(type, client, buffer)] appends these bytes to
    [buffer]. *)
Variable QLValue_encode : DataType -> QLClient -> QLValue -> bytes.

(** [value.Deserialize(type, client, data)]: from the value before the
    call and the cursor, the status, the value after the call and the
    cursor after the call. *)
Variable QLValue_Deserialize :
  DataType -> QLClient -> QLValue -> bytes -> Status * QLValue * bytes.

Record ColumnSchema := { col_id : Z; col_type : DataType }.

Definition Schema := list ColumnSchema.

Definition num_columns (schema : Schema) : nat := length schema.

Record QLRow := { row_schema_ : Schema; values_ : list QLValue }.

(** [QLRow::QLRow(schema)]: [values_(schema->num_columns())]. *)
Definition QLRow_new (schema : Schema) : QLRow :=
  {| row_schema_ := schema;
     values_ := replicate (num_columns schema) QLValue_default |}.

(** The loop of [QLRow::Serialize] from column [col_idx] on; [cols] are the
    columns of [schema_] from [col_idx] to the end. *)
Fixpoint QLRow_Serialize_from (client : QLClient) (cols : list ColumnSchema)
    (col_idx : nat) (values : list QLValue) (buffer : bytes)
    : Outcome bytes :=
  match cols with
  | [] => Returns buffer
  | c :: cols' =>
      match values !! col_idx with
      | None => Fails OutOfRange
      | Some v =>
          QLRow_Serialize_from client cols' (S col_idx) values
            (buffer ++ QLValue_encode (col_type c) client v)
      end
  end.

Definition QLRow_Serialize (client : QLClient) (row : QLRow)
    (buffer : bytes) : Outcome bytes :=
  QLRow_Serialize_from client (row_schema_ row) 0 (values_ row) buffer.

(** The loop of [QLRow::Deserialize] from column [col_idx] on.  Each value
    is decoded in place; [RETURN_NOT_OK] leaves the loop at the first
    status that is not OK. *)
Fixpoint QLRow_Deserialize_from (client : QLClient)
    (cols : list ColumnSchema) (col_idx : nat) (values : list QLValue)
    (data : bytes) : Outcome (Status * list QLValue * bytes) :=
  match cols with
  | [] => Returns (OK, values, data)
  | c :: cols' =>
      match values !! col_idx with
      | None => Fails OutOfRange
      | Some v =>
          let '(s, v', data') :=
            QLValue_Deserialize (col_type c) client v data in
          let values' := <[col_idx := v']> values in
          if status_ok s
          then QLRow_Deserialize_from client cols' (S col_idx) values' data'
          else Returns (s, values', data')
      end
  end.

Definition QLRow_Deserialize (client : QLClient) (row : QLRow)
    (data : bytes) : Outcome (Status * QLRow * bytes) :=
  '(s, values, data') <-
    QLRow_Deserialize_from client (row_schema_ row) 0 (values_ row) data ;;
  Returns (s, {| row_schema_ := row_schema_ row; values_ := values |}, data').

Record QLRowBlock := { schema_ : Schema; rows_ : list QLRow }.

(** [QLRowBlock::QLRowBlock(schema)]. *)
Definition QLRowBlock_new (schema : Schema) : QLRowBlock :=
  {| schema_ := schema; rows_ := [] |}.

(** [QLRowBlock::Extend]: [rows_.emplace_back(schema_)], and the reference
    to [rows_.back()] as the index of that row. *)
Definition Extend (b : QLRowBlock) : QLRowBlock * nat :=
  ({| schema_ := schema_ b; rows_ := rows_ b ++ [QLRow_new (schema_ b)] |},
   length (rows_ b)).

(** [QLRowBlock::AddRow]: [rows_.push_back(row)], no look at the schema
    of [row]. *)
Definition AddRow (b : QLRowBlock) (row : QLRow) : Status * QLRowBlock :=
  (OK, {| schema_ := schema_ b; rows_ := rows_ b ++ [row] |}).

(** The range-for of [QLRowBlock::Serialize]. *)
Fixpoint Serialize_rows (client : QLClient) (rows : list QLRow)
    (buffer : bytes) : Outcome bytes :=
  match rows with
  | [] => Returns buffer
  | row :: rows' =>
      buffer' <- QLRow_Serialize client row buffer ;;
      Serialize_rows client rows' buffer'
  end.

(** [QLRowBlock::Serialize].  [rows_.size()] is a [size_t] and is passed
    for an [int32_t] parameter. *)
Definition Serialize (client : QLClient) (b : QLRowBlock) (buffer : bytes)
    : Outcome bytes :=
  _ <- CHECK_EQ_CQL client ;;
  Serialize_rows client (rows_ b)
    (CQLEncodeLength (to_int32 (Z.of_nat (length (rows_ b)))) buffer).

(** A write through the reference that [Extend] returned. *)
Definition set_row (b : QLRowBlock) (h : nat) (row : QLRow) : QLRowBlock :=
  {| schema_ := schema_ b; rows_ := <[h := row]> (rows_ b) |}.

(** The [for] loop of [QLRowBlock::Deserialize] with [n] iterations to
    go. *)
Fixpoint Deserialize_rows (client : QLClient) (n : nat) (b : QLRowBlock)
    (data : bytes) : Outcome (Status * QLRowBlock * bytes) :=
  match n with
  | O => Returns (OK, b, data)
  | S n' =>
      let '(b1, h) := Extend b in
      match rows_ b1 !! h with
      | None => Fails OutOfRange
      | Some row =>
          '(s, row', data') <- QLRow_Deserialize client row data ;;
          let b2 := set_row b1 h row' in
          if status_ok s
          then Deserialize_rows client n' b2 data'
          else Returns (s, b2, data')
      end
  end.

(** [QLRowBlock::Deserialize].  The loop [for (i = 0; i < count; ++i)] runs
    [count] times, and not at all for a count that is not positive. *)
Definition Deserialize (client : QLClient) (b : QLRowBlock) (data : bytes)
    : Outcome (Status * QLRowBlock * bytes) :=
  _ <- CHECK_EQ_CQL client ;;
  let '(s, count, data1) := CQLDecodeNum data 0 in
  if status_ok s then
    '(s', b', data2) <- Deserialize_rows client (Z.to_nat count) b data1 ;;
    if status_ok s' then
      match data2 with
      | [] => Returns (OK, b', data2)
      | _ :: _ =>
          Returns (Error Corruption "Extra data at the end of row block",
                   b', data2)
      end
    else Returns (s', b', data2)
  else Returns (s, b, data1).

(** [QLRowBlock::GetRowCount]; [count] is the out-parameter, written only
    on success by [*count = cnt], an [int32_t] stored into a [size_t]. *)
Definition GetRowCount (client : QLClient) (data : bytes) (count : Z)
    : Outcome (Status * Z) :=
  _ <- CHECK_EQ_CQL client ;;
  let '(s, cnt, _) := CQLDecodeNum data 0 in
  if status_ok s then Returns (OK, to_size_t cnt) else Returns (s, count).

(** [QLRowBlock::AppendRowsData]; the second component is [*dst] after the
    call. *)
Definition AppendRowsData (client : QLClient) (src dst : bytes)
    : Outcome (Status * bytes) :=
  _ <- CHECK_EQ_CQL client ;;
  let '(s, src_cnt, src_slice) := CQLDecodeNum src 0 in
  if status_ok s then
    if 0 <? src_cnt then
      let '(s', dst_cnt, _) := CQLDecodeNum dst 0 in
      if status_ok s' then
        if dst_cnt =? 0 then Returns (OK, src)
        else
          let dst1 := dst ++ src_slice in
          let dst_cnt' := int32_add dst_cnt src_cnt in
          Returns (OK, CQLEncodeLength_at dst_cnt' dst1)
      else Returns (s', dst)
    else Returns (OK, dst)
  else Returns (s, dst).

(** *** What the statements below speak of *)

(** The class invariant of [QLRow]: the constructors size [values_] by the
    schema and no member resizes it. *)
Definition row_inv (row : QLRow) : Prop :=
  length (values_ row) = num_columns (row_schema_ row).

(** The encoding of a row as the wire format has it: the encodings of its
    values in schema column order. *)
Definition row_encoding (client : QLClient) (row : QLRow) : bytes :=
  concat (zip_with (fun c v => QLValue_encode (col_type c) client v)
            (row_schema_ row) (values_ row)).

(** The encodings of the rows of a block, in block order. *)
Definition rows_encoding (client : QLClient) (rows : list QLRow) : bytes :=
  concat (map (row_encoding client) rows).

(** A row is valid under [schema] for [value_ok] when it is bound to
    [schema] and holds, column by column, a value that [value_ok] admits
    at the column's type. *)
Definition row_valid (value_ok : DataType -> QLValue -> Prop)
    (schema : Schema) (row : QLRow) : Prop :=
  row_schema_ row = schema /\
  Forall2 (fun c v => value_ok (col_type c) v) schema (values_ row).

End RowBlock.

Arguments col_id {DataType} c.
Arguments col_type {DataType} c.
Arguments num_columns {DataType} schema.
Arguments Build_QLRow {DataType QLValue} row_schema_ values_.
Arguments row_schema_ {DataType QLValue} q.
Arguments values_ {DataType QLValue} q.
Arguments QLRow_new {DataType QLValue} QLValue_default schema.
Arguments QLRow_Serialize_from {DataType QLValue} QLValue_encode
  client cols col_idx values buffer.
Arguments QLRow_Serialize {DataType QLValue} QLValue_encode
  client row buffer.
Arguments QLRow_Deserialize_from {DataType QLValue} QLValue_Deserialize
  client cols col_idx values data.
Arguments QLRow_Deserialize {DataType QLValue} QLValue_Deserialize
  client row data.
Arguments Build_QLRowBlock {DataType QLValue} schema_ rows_.
Arguments schema_ {DataType QLValue} q.
Arguments rows_ {DataType QLValue} q.
Arguments QLRowBlock_new {DataType QLValue} schema.
Arguments Extend {DataType QLValue} QLValue_default b.
Arguments AddRow {DataType QLValue} b row.
Arguments Serialize_rows {DataType QLValue} QLValue_encode
  client rows buffer.
Arguments Serialize {DataType QLValue} QLValue_encode client b buffer.
Arguments set_row {DataType QLValue} b h row.
Arguments Deserialize_rows {DataType QLValue} QLValue_default
  QLValue_Deserialize client n b data.
Arguments Deserialize {DataType QLValue} QLValue_default
  QLValue_Deserialize client b data.
Arguments row_inv {DataType QLValue} row.
Arguments row_encoding {DataType QLValue} QLValue_encode client row.
Arguments rows_encoding {DataType QLValue} QLValue_encode client rows.
Arguments row_valid {DataType QLValue} value_ok schema row.

(** ** Printing

    [QLValue::ToString] lives outside [ql_rowblock.cc]; the printers are
    parametric in it. *)

Section Printing.

Variable DataType : Type.
Variable QLValue : Type.
Variable QLValue_ToString : QLValue -> string.

(** The loop of [QLRow::ToString] from column [col_idx] on, [s] being the
    string built so far. *)
Fixpoint QLRow_ToString_from (cols : list (ColumnSchema DataType))
    (col_idx : nat) (values : list QLValue) (s : string) : Outcome string :=
  match cols with
  | [] => Returns s
  | _ :: cols' =>
      let s1 := if (0 <? col_idx)%nat then (s ++ ", ")%string else s in
      match values !! col_idx with
      | None => Fails OutOfRange
      | Some v =>
          QLRow_ToString_from cols' (S col_idx) values
            (s1 ++ QLValue_ToString v)%string
      end
  end.

(** [QLRow::ToString]. *)
Definition QLRow_ToString (row : QLRow DataType QLValue) : Outcome string :=
  s <- QLRow_ToString_from (row_schema_ row) 0 (values_ row) "{ " ;;
  Returns (s ++ " }")%string.

(** The loop of [QLRowBlock::ToString] from row [i] on; [rows] are the
    rows of [rows_] from [i] to the end. *)
Fixpoint QLRowBlock_ToString_from (rows : list (QLRow DataType QLValue))
    (i : nat) (s : string) : Outcome string :=
  match rows with
  | [] => Returns s
  | row :: rows' =>
      let s1 := if (0 <? i)%nat then (s ++ ", ")%string else s in
      t <- QLRow_ToString row ;;
      QLRowBlock_ToString_from rows' (S i) (s1 ++ t)%string
  end.

(** [QLRowBlock::ToString]. *)
Definition QLRowBlock_ToString (b : QLRowBlock DataType QLValue)
    : Outcome string :=
  s <- QLRowBlock_ToString_from (rows_ b) 0 "{ " ;;
  Returns (s ++ " }")%string.

End Printing.

Arguments QLRow_ToString_from {DataType QLValue} QLValue_ToString
  cols col_idx values s.
Arguments QLRow_ToString {DataType QLValue} QLValue_ToString row.
Arguments QLRowBlock_ToString_from {DataType QLValue} QLValue_ToString
  rows i s.
Arguments QLRowBlock_ToString {DataType QLValue} QLValue_ToString b.

(** A row is made for [schema] when it is bound to it and keeps the class
    invariant of [QLRow]. *)
Definition made_for {DataType QLValue : Type} (schema : Schema DataType)
    (row : QLRow DataType QLValue) : Prop :=
  row_schema_ row = schema /\ row_inv row.

(** The rows of a block are made for the schema of the block: what
    [Extend] and [Deserialize] append, and what [AddRow] does not look
    at. *)
Definition block_inv {DataType QLValue : Type}
    (b : QLRowBlock DataType QLValue) : Prop :=
  Forall (made_for (schema_ b)) (rows_ b).

(** ** Call home: the assembly of the report ([call_home.cc])

    What a collector gathers comes from the server it runs in; a collector
    is kept as its type, its level and the function from the requested
    level and its [json_] before [Collect] to its [json_] after.  The
    order of the enumerators of [CollectionLevel] is declared outside
    [call_home.cc] and is a parameter.  Log lines are left out, and so is
    a [Collect] that ends the process ([LOG(FATAL)] in [BasicCollector]
    on the server type [ALL]). *)

Inductive ServerType :=
| ServerType_ALL
| MASTER
| TSERVER.

Inductive CollectionLevel :=
| LOW
| MEDIUM
| HIGH
| CollectionLevel_ALL.

Definition ServerType_eqb (x y : ServerType) : bool :=
  match x, y with
  | ServerType_ALL, ServerType_ALL => true
  | MASTER, MASTER => true
  | TSERVER, TSERVER => true
  | _, _ => false
  end.

(** [std::string::empty]. *)
Definition string_empty (s : string) : bool :=
  match s with
  | EmptyString => true
  | String _ _ => false
  end.

Record Collector := {
  collector_type : ServerType;
  collection_level : CollectionLevel;
  Collect : CollectionLevel -> string -> string;
  server_type_ : ServerType;
  json_ : string
}.

Definition set_json (c : Collector) (json : string) : Collector :=
  {| collector_type := collector_type c;
     collection_level := collection_level c;
     Collect := Collect c;
     server_type_ := server_type_ c;
     json_ := json |}.

Section CallHome.

(** [a <= b] on [CollectionLevel]. *)
Variable level_le : CollectionLevel -> CollectionLevel -> bool.

(** [CollectorBase::Run]: the result and the collector after the call. *)
Definition Run (c : Collector) (level : CollectionLevel) : bool * Collector :=
  let c0 := set_json c EmptyString in
  if ServerType_eqb (collector_type c0) ServerType_ALL
     || ServerType_eqb (collector_type c0) (server_type_ c0)
  then
    if level_le (collection_level c0) level
    then (true, set_json c0 (Collect c0 level (json_ c0)))
    else (false, c0)
  else (false, c0).

(** [CallHome::GetCollectionLevel] on the value of the flag
    [callhome_collection_level]. *)
Definition GetCollectionLevel (flag : string) : CollectionLevel :=
  if (flag =? "high")%string then HIGH
  else if (flag =? "medium")%string then MEDIUM
  else if (flag =? "low")%string then LOW
  else LOW.

(** The loop of [CallHome::BuildJson]: the string, and the collectors
    after their runs. *)
Fixpoint BuildJson_loop (level : CollectionLevel)
    (collectors : list Collector) (str comma : string)
    : string * list Collector :=
  match collectors with
  | [] => (str, [])
  | c :: rest =>
      let '(ran, c') := Run c level in
      let '(str', comma') :=
        if ran && negb (string_empty (json_ c'))
        then ((str ++ comma) ++ json_ c', ",")%string
        else (str, comma) in
      let '(out, rest') := BuildJson_loop level rest str' comma' in
      (out, c' :: rest')
  end.

(** [CallHome::BuildJson] up to the string that is handed to the JSON
    reader. *)
Definition BuildJson_str (flag : string) (collectors : list Collector)
    : string * list Collector :=
  let collection_level := GetCollectionLevel flag in
  let '(str, collectors') :=
    BuildJson_loop collection_level collectors "{" EmptyString in
  ((str ++ "}")%string, collectors').

End CallHome.

(** The double quote. *)
Definition dquote : string := String (Ascii.ascii_of_nat 34) EmptyString.

(** [Substitute] on the pattern of [AppendPairToJson]: [$0] and [$1]
    between double quotes around a colon. *)
Definition Substitute_pair (key value : string) : string :=
  (dquote ++ key ++ dquote ++ ":" ++ dquote ++ value ++ dquote)%string.

(** [AppendPairToJson]; the result is [*out] after the call. *)
Definition AppendPairToJson (key value out : string) : string :=
  let out1 := if negb (string_empty out) then (out ++ ",")%string else out in
  (out1 ++ Substitute_pair key value)%string.

(** ** A small value codec

    One column type whose values are a null or a byte.  A null is the tag
    byte 0; a byte [b] is the tag byte 1 followed by [b].  It instantiates
    the section above wherever a statement is run on concrete buffers. *)

Module Sample.

Inductive DataType := TINY.

Definition QLValue := option byte.

Definition QLValue_default : QLValue := None.

Definition QLValue_encode (t : DataType) (client : QLClient) (v : QLValue)
    : bytes :=
  match v with
  | None => [x00]
  | Some b => [x01; b]
  end.

Definition QLValue_Deserialize (t : DataType) (client : QLClient)
    (old : QLValue) (data : bytes) : Status * QLValue * bytes :=
  match data with
  | x00 :: rest => (OK, None, rest)
  | x01 :: b :: rest => (OK, Some b, rest)
  | _ => (Error MalformedInput "Malformed value", old, data)
  end.

Definition value_ok (t : DataType) (v : QLValue) : Prop := True.

Definition col (id : Z) : ColumnSchema DataType :=
  {| col_id := id; col_type := TINY |}.

Definition row (schema : Schema DataType) (vs : list QLValue)
    : QLRow DataType QLValue :=
  {| row_schema_ := schema; values_ := vs |}.

Definition block (schema : Schema DataType)
    (rows : list (QLRow DataType QLValue)) : QLRowBlock DataType QLValue :=
  {| schema_ := schema; rows_ := rows |}.

Definition Serialize := Serialize QLValue_encode.
Definition Deserialize := Deserialize QLValue_default QLValue_Deserialize.

(** A schema of two columns and rows under it. *)
Definition two_columns : Schema DataType := [col 1; col 2].

Definition rows_5n_79 : list (QLRow DataType QLValue) :=
  [row two_columns [Some x05; None]; row two_columns [Some x07; Some x09]].

Definition rows_23 : list (QLRow DataType QLValue) :=
  [row two_columns [Some x02; Some x03]].

(** The bytes of the count 2 and of the rows [(5, null)] and [(7, 9)]. *)
Definition encoded_5n_79 : bytes :=
  [x00; x00; x00; x02; x01; x05; x00; x01; x07; x01; x09].

(** How a value is printed: [null], or the byte as one character. *)
Definition QLValue_ToString (v : QLValue) : string :=
  match v with
  | None => "null"
  | Some b => String (Ascii.ascii_of_byte b) EmptyString
  end.

(** The schema without columns, as a projection on column ids that are all
    missing from the base schema gives it, and the row under it. *)
Definition no_columns : Schema DataType := [].

Definition empty_row : QLRow DataType QLValue :=
  QLRow_new QLValue_default no_columns.

(** [n] rows without columns; [n] is kept as a [Z] so that counts beyond
    the [int32_t] range can be written down. *)
Definition empty_rows (n : Z) : list (QLRow DataType QLValue) :=
  replicate (Z.to_nat n) empty_row.

End Sample.

(** * Properties *)

(** ** Bytes and the count prefix *)

Lemma byte_to_Z_range (b : byte) : 0 <= byte_to_Z b < 256.
Proof.
  unfold byte_to_Z. pose proof (Byte.to_N_bounded b). lia.
Qed.

Lemma byte_to_of_Z (z : Z) : byte_to_Z (byte_of_Z z) = z mod 256.
Proof.
  unfold byte_to_Z, byte_of_Z.
  assert (Hr : 0 <= z mod 256 < 256) by (apply Z.mod_pos_bound; lia).
  destruct (Byte.of_N (Z.to_N (z mod 256))) as [b|] eqn:E.
  - apply Byte.to_of_N in E. rewrite E. lia.
  - apply Byte.of_N_None_iff in E. lia.
Qed.

Lemma Load32_Store32 (v : Z) :
  Load32 (byte_of_Z (v / 2 ^ 24)) (byte_of_Z (v / 2 ^ 16))
         (byte_of_Z (v / 2 ^ 8)) (byte_of_Z v) = v mod 2 ^ 32.
Proof.
  unfold Load32. rewrite !byte_to_of_Z.
  change (2 ^ 24) with 16777216. change (2 ^ 16) with 65536.
  change (2 ^ 8) with 256. change (2 ^ 32) with 4294967296.
  Z.div_mod_to_equations. lia.
Qed.

Lemma to_int32_range (z : Z) : INT32_MIN <= to_int32 z <= INT32_MAX.
Proof.
  unfold to_int32, INT32_MIN, INT32_MAX.
  change (2 ^ 32) with 4294967296. change (2 ^ 31) with 2147483648.
  pose proof (Z.mod_pos_bound z 4294967296).
  destruct (Z.ltb_spec (z mod 4294967296) 2147483648); lia.
Qed.

Lemma to_int32_id (z : Z) :
  INT32_MIN <= z <= INT32_MAX -> to_int32 z = z.
Proof.
  unfold to_int32, INT32_MIN, INT32_MAX.
  change (2 ^ 32) with 4294967296. change (2 ^ 31) with 2147483648.
  intros H.
  destruct (Z.ltb_spec (z mod 4294967296) 2147483648);
    Z.div_mod_to_equations; lia.
Qed.

Lemma to_int32_to_uint32 (z : Z) : to_int32 (to_uint32 z) = to_int32 z.
Proof.
  unfold to_int32, to_uint32. rewrite Z.mod_mod by lia. reflexivity.
Qed.

Lemma to_uint32_id (z : Z) : 0 <= z <= INT32_MAX -> to_uint32 z = z.
Proof.
  unfold to_uint32, INT32_MAX. intros H. apply Z.mod_small. lia.
Qed.

Lemma to_size_t_id (z : Z) : 0 <= z <= INT32_MAX -> to_size_t z = z.
Proof.
  unfold to_size_t, INT32_MAX. intros H. apply Z.mod_small. lia.
Qed.

(** Reading back a count that [CQLEncodeLength] wrote gives the count as an
    [int32_t], and the cursor stands behind the four bytes. *)
Lemma CQLDecodeNum_Store32 (n : Z) (rest : bytes) (val : Z) :
  CQLDecodeNum (Store32 (to_uint32 n) ++ rest) val = (OK, to_int32 n, rest).
Proof.
  unfold Store32. cbn [app CQLDecodeNum].
  rewrite Load32_Store32. fold (to_uint32 (to_uint32 n)).
  rewrite to_int32_to_uint32, to_int32_to_uint32. reflexivity.
Qed.

Lemma CQLDecodeNum_ok (data : bytes) (val c : Z) (rest : bytes) (s : Status) :
  CQLDecodeNum data val = (s, c, rest) -> status_ok s = true ->
  s = OK /\ INT32_MIN <= c <= INT32_MAX /\
  exists b0 b1 b2 b3, data = b0 :: b1 :: b2 :: b3 :: rest.
Proof.
  unfold CQLDecodeNum.
  destruct data as [|b0 [|b1 [|b2 [|b3 tl]]]]; intros E Hs;
    inversion E; subst; try discriminate.
  split; [reflexivity|]. split; [apply to_int32_range|]. eauto.
Qed.

Lemma CQLDecodeNum_err (data : bytes) (val c : Z) (rest : bytes) (s : Status) :
  CQLDecodeNum data val = (s, c, rest) -> status_ok s = false ->
  c = val /\ rest = data /\ (length data < 4)%nat.
Proof.
  unfold CQLDecodeNum.
  destruct data as [|b0 [|b1 [|b2 [|b3 tl]]]]; intros E Hs;
    inversion E; subst; try discriminate; cbn; repeat split; lia.
Qed.

Lemma overwrite_Store32 (x y : Z) (tl : bytes) :
  overwrite (Store32 x) (Store32 y ++ tl) = Store32 x ++ tl.
Proof. reflexivity. Qed.

(** ** The byte-level merge *)

(** What [AppendRowsData] returns under the supported dialect, by the two
    prefixes. *)
Lemma AppendRowsData_cases (src dst : bytes) :
  AppendRowsData YQL_CLIENT_CQL src dst =
  match CQLDecodeNum src 0 with
  | (Error c m, _, _) => Returns (Error c m, dst)
  | (OK, src_cnt, src_slice) =>
      if 0 <? src_cnt then
        match CQLDecodeNum dst 0 with
        | (Error c m, _, _) => Returns (Error c m, dst)
        | (OK, dst_cnt, _) =>
            if dst_cnt =? 0 then Returns (OK, src)
            else Returns (OK, CQLEncodeLength_at (int32_add dst_cnt src_cnt)
                                (dst ++ src_slice))
        end
      else Returns (OK, dst)
  end.
Proof.
  unfold AppendRowsData. cbn [CHECK_EQ_CQL is_cql obind].
  destruct (CQLDecodeNum src 0) as [[s1 c1] r1].
  destruct s1 as [|code msg]; cbn [status_ok]; [|reflexivity].
  destruct (0 <? c1); [|reflexivity].
  destruct (CQLDecodeNum dst 0) as [[s2 c2] r2].
  destruct s2 as [|code msg]; reflexivity.
Qed.

(** C5.  With a source whose prefix decodes to count 0, [AppendRowsData]
    returns OK and leaves the destination as it was; with a source whose
    prefix decodes to a positive count and a destination whose prefix
    decodes to count 0, it returns OK and the destination becomes the
    source, byte for byte. *)
Theorem AppendRowsData_identity
    (src dst : bytes) (src_cnt : Z) (src_slice : bytes) :
  CQLDecodeNum src 0 = (OK, src_cnt, src_slice) ->
  (src_cnt = 0 -> AppendRowsData YQL_CLIENT_CQL src dst = Returns (OK, dst))
  /\ (0 < src_cnt ->
      forall dst_slice, CQLDecodeNum dst 0 = (OK, 0, dst_slice) ->
      AppendRowsData YQL_CLIENT_CQL src dst = Returns (OK, src)).
Proof.
  intros Hsrc. rewrite AppendRowsData_cases, Hsrc. split.
  - intros ->. reflexivity.
  - intros Hpos dst_slice Hdst.
    destruct (Z.ltb_spec 0 src_cnt) as [_|Hle]; [|lia].
    rewrite Hdst. reflexivity.
Qed.

Lemma AppendRowsData_identity_witness :
  AppendRowsData YQL_CLIENT_CQL [x00; x00; x00; x00]
    [x00; x00; x00; x01; x01; x2a]
  = Returns (OK, [x00; x00; x00; x01; x01; x2a])
  /\ AppendRowsData YQL_CLIENT_CQL [x00; x00; x00; x01; x01; x2a]
       [x00; x00; x00; x00]
     = Returns (OK, [x00; x00; x00; x01; x01; x2a]).
Proof.
  split.
  - apply (proj1 (AppendRowsData_identity [x00; x00; x00; x00]
                    [x00; x00; x00; x01; x01; x2a] 0 [] eq_refl)).
    reflexivity.
  - apply (proj2 (AppendRowsData_identity [x00; x00; x00; x01; x01; x2a]
                    [x00; x00; x00; x00] 1 [x01; x2a] eq_refl)) with (dst_slice := []).
    + lia.
    + reflexivity.
Defined.

(** C9.  Whenever [AppendRowsData] returns a status that is not OK, the
    destination is byte for byte what it was, and the status is the one
    with which the decoding of the source's prefix failed, or, the
    source's prefix having decoded to a positive count, the one with which
    the decoding of the destination's prefix failed. *)
Theorem AppendRowsData_error_keeps_dst
    (client : QLClient) (src dst : bytes) (s : Status) (dst' : bytes) :
  AppendRowsData client src dst = Returns (s, dst') ->
  s <> OK ->
  dst' = dst
  /\ ((exists v d, CQLDecodeNum src 0 = (s, v, d))
      \/ (exists src_cnt src_slice v d,
             CQLDecodeNum src 0 = (OK, src_cnt, src_slice) /\ 0 < src_cnt
             /\ CQLDecodeNum dst 0 = (s, v, d))).
Proof.
  destruct client as [|n]; [|discriminate].
  rewrite AppendRowsData_cases.
  destruct (CQLDecodeNum src 0) as [[s1 c1] r1] eqn:E1.
  destruct s1 as [|code msg].
  - destruct (Z.ltb_spec 0 c1) as [Hpos|Hle].
    + destruct (CQLDecodeNum dst 0) as [[s2 c2] r2] eqn:E2.
      destruct s2 as [|code msg].
      * destruct (c2 =? 0); intros E Hs; inversion E; subst; congruence.
      * intros E Hs. inversion E; subst. split; [reflexivity|].
        right. exists c1, r1, c2, r2. auto.
    + intros E Hs. inversion E; subst. congruence.
  - intros E Hs. inversion E; subst. split; [reflexivity|].
    left. exists c1, r1. reflexivity.
Qed.

Lemma AppendRowsData_error_keeps_dst_witness :
  AppendRowsData YQL_CLIENT_CQL [x00; x00; x00; x01; x01; x2a]
    [x00; x00; x07]
  = Returns (Error MalformedInput "Truncated CQL message", [x00; x00; x07])
  /\ Error MalformedInput "Truncated CQL message" <> OK
  /\ [x00; x00; x07] = [x00; x00; x07]
  /\ ((exists v d,
          CQLDecodeNum [x00; x00; x00; x01; x01; x2a] 0
          = (Error MalformedInput "Truncated CQL message", v, d))
      \/ (exists src_cnt src_slice v d,
             CQLDecodeNum [x00; x00; x00; x01; x01; x2a] 0
             = (OK, src_cnt, src_slice) /\ 0 < src_cnt
             /\ CQLDecodeNum [x00; x00; x07] 0
                = (Error MalformedInput "Truncated CQL message", v, d))).
Proof.
  split; [reflexivity|]. split; [discriminate|].
  apply (AppendRowsData_error_keeps_dst YQL_CLIENT_CQL
           [x00; x00; x00; x01; x01; x2a] [x00; x00; x07]).
  - reflexivity.
  - discriminate.
Defined.

(** ** Row blocks, for any value codec *)

Section Framing.

Variable DataType : Type.
Variable QLValue : Type.
Variable QLValue_default : QLValue.
Variable QLValue_encode : DataType -> QLClient -> QLValue -> bytes.
Variable QLValue_Deserialize :
  DataType -> QLClient -> QLValue -> bytes -> Status * QLValue * bytes.

Abbreviation Row := (QLRow DataType QLValue).
Abbreviation Block := (QLRowBlock DataType QLValue).
Abbreviation Extend' := (Extend QLValue_default).
Abbreviation Deserialize_rows' :=
  (Deserialize_rows QLValue_default QLValue_Deserialize).
Abbreviation Deserialize' := (Deserialize QLValue_default QLValue_Deserialize).
Abbreviation Serialize' := (Serialize QLValue_encode).

(** C8.  [Extend] is total: from every block it gives the block with one
    more row at the end and the handle of that row; the schema of the
    block is kept, the new row is bound to it, and the values of the new
    row are one default-constructed value for each of its columns. *)
Theorem Extend_appends_default_row (b : Block) :
  exists (b' : Block) (h : nat) (row : Row),
    Extend' b = (b', h)
    /\ schema_ b' = schema_ b
    /\ rows_ b' = rows_ b ++ [row]
    /\ rows_ b' !! h = Some row
    /\ row_schema_ row = schema_ b
    /\ values_ row = replicate (num_columns (schema_ b)) QLValue_default
    /\ length (values_ row) = num_columns (schema_ b)
    /\ length (rows_ b') = S (length (rows_ b)).
Proof.
  eexists _, _, (QLRow_new QLValue_default (schema_ b)).
  split; [reflexivity|]. cbn.
  repeat split.
  - apply list_lookup_middle. reflexivity.
  - apply length_replicate.
  - rewrite length_app. cbn. lia.
Qed.

(** C7.  [AddRow] returns OK for every block and every row, whatever the
    schema the row is bound to, and the block then holds its former rows
    followed by the row as it was given; the schema of the block is
    kept. *)
Theorem AddRow_appends_unchecked (b : Block) (row : Row) :
  exists b' : Block,
    AddRow b row = (OK, b')
    /\ schema_ b' = schema_ b
    /\ rows_ b' = rows_ b ++ [row]
    /\ rows_ b' !! length (rows_ b) = Some row
    /\ length (rows_ b') = S (length (rows_ b)).
Proof.
  eexists. split; [reflexivity|]. cbn. repeat split.
  - apply list_lookup_middle. reflexivity.
  - rewrite length_app. cbn. lia.
Qed.

(** One turn of the loop of [Deserialize]: the row that [Extend] appends
    is decoded in place. *)
Lemma Deserialize_rows_S (client : QLClient) (n : nat) (b : Block)
    (data : bytes) :
  Deserialize_rows' client (S n) b data =
  obind
    (QLRow_Deserialize QLValue_Deserialize client
       (QLRow_new QLValue_default (schema_ b)) data)
    (fun r =>
       let b2 := {| schema_ := schema_ b; rows_ := rows_ b ++ [r.1.2] |} in
       if status_ok r.1.1 then Deserialize_rows' client n b2 r.2
       else Returns (r.1.1, b2, r.2)).
Proof.
  cbn [Deserialize_rows Extend rows_ schema_].
  rewrite list_lookup_middle by reflexivity.
  destruct (QLRow_Deserialize _ _ _ _) as [[[s row'] data']|f];
    [|reflexivity].
  cbn [obind fst snd]. unfold set_row. cbn [rows_ schema_].
  rewrite insert_app_r_alt by lia.
  rewrite Nat.sub_diag. reflexivity.
Qed.

(** The loop only appends: when it returns, the schema is kept, the
    former rows are a prefix of the rows, and with status OK exactly [n]
    rows came on top. *)
Lemma Deserialize_rows_appends (client : QLClient) (n : nat) :
  forall (b : Block) (data : bytes) (s : Status) (b' : Block)
         (data' : bytes),
    Deserialize_rows' client n b data = Returns (s, b', data') ->
    schema_ b' = schema_ b
    /\ exists new : list Row,
         rows_ b' = rows_ b ++ new
         /\ (status_ok s = true -> length new = n).
Proof.
  induction n as [|n IH]; intros b data s b' data' H.
  - cbn in H. inversion H; subst. split; [reflexivity|].
    exists []. rewrite app_nil_r. auto.
  - rewrite Deserialize_rows_S in H.
    destruct (QLRow_Deserialize _ _ _ _) as [[[s1 row'] data1]|f];
      [|discriminate].
    cbn [obind fst snd] in H.
    destruct (status_ok s1) eqn:Es1.
    + apply IH in H. cbn [schema_ rows_] in H.
      destruct H as [Hs [new [Hr Hl]]]. split; [exact Hs|].
      exists (row' :: new). rewrite Hr, <- app_assoc. split; [reflexivity|].
      intros Hok. cbn. rewrite Hl by exact Hok. reflexivity.
    + inversion H; subst. split; [reflexivity|].
      exists [row']. split; [reflexivity|]. intros Hok. congruence.
Qed.

(** What [Deserialize] returns under the supported dialect once the
    prefix has decoded. *)
Lemma Deserialize_after_prefix (b : Block) (data : bytes) (count : Z)
    (rest : bytes) :
  CQLDecodeNum data 0 = (OK, count, rest) ->
  Deserialize' YQL_CLIENT_CQL b data =
  obind (Deserialize_rows' YQL_CLIENT_CQL (Z.to_nat count) b rest)
    (fun r =>
       if status_ok r.1.1 then
         match r.2 with
         | [] => Returns (OK, r.1.2, r.2)
         | _ :: _ =>
             Returns (Error Corruption "Extra data at the end of row block",
                      r.1.2, r.2)
         end
       else Returns r).
Proof.
  intros H. unfold Deserialize. cbn [CHECK_EQ_CQL is_cql obind].
  rewrite H. cbn [status_ok].
  destruct (Deserialize_rows' _ _ _ _) as [[[s1 b1] d1]|f]; reflexivity.
Qed.

Lemma Deserialize_prefix_error (b : Block) (data : bytes) (s : Status)
    (v : Z) (d : bytes) :
  CQLDecodeNum data 0 = (s, v, d) -> status_ok s = false ->
  Deserialize' YQL_CLIENT_CQL b data = Returns (s, b, data).
Proof.
  intros H Hs. unfold Deserialize. cbn [CHECK_EQ_CQL is_cql obind].
  rewrite H, Hs. apply CQLDecodeNum_err in H; [|exact Hs].
  destruct H as (_ & -> & _). reflexivity.
Qed.

(** C3.  Under the supported dialect, for every buffer: if [Deserialize]
    returns OK, then the prefix decoded to a count, the loop decoded the
    rows the count declares (none for a count that is not positive) with
    status OK, these rows are what the block gained, and the cursor is
    empty; and if the rows the count declares are decoded with status OK
    and a byte is left in the cursor, [Deserialize] returns the corruption
    error. *)
Theorem Deserialize_rejects_leftover (b : Block) (data : bytes) :
  (forall (b' : Block) (data' : bytes),
     Deserialize' YQL_CLIENT_CQL b data = Returns (OK, b', data') ->
     data' = []
     /\ exists (count : Z) (rest : bytes) (new : list Row),
          CQLDecodeNum data 0 = (OK, count, rest)
          /\ Deserialize_rows' YQL_CLIENT_CQL (Z.to_nat count) b rest
             = Returns (OK, b', [])
          /\ rows_ b' = rows_ b ++ new
          /\ length new = Z.to_nat count)
  /\ (forall (count : Z) (rest : bytes) (b1 : Block) (x : byte) (d : bytes),
        CQLDecodeNum data 0 = (OK, count, rest) ->
        Deserialize_rows' YQL_CLIENT_CQL (Z.to_nat count) b rest
        = Returns (OK, b1, x :: d) ->
        Deserialize' YQL_CLIENT_CQL b data
        = Returns (Error Corruption "Extra data at the end of row block",
                   b1, x :: d)).
Proof.
  split.
  - intros b' data' H.
    destruct (CQLDecodeNum data 0) as [[s0 count] rest] eqn:E0.
    destruct s0 as [|code msg].
    + rewrite (Deserialize_after_prefix b data count rest E0) in H.
      destruct (Deserialize_rows' YQL_CLIENT_CQL (Z.to_nat count) b rest)
        as [[[s1 b1] d1]|f] eqn:E1; [|discriminate].
      cbn [obind fst snd] in H.
      destruct s1 as [|code msg]; cbn [status_ok] in H; [|inversion H].
      destruct d1 as [|x d1]; inversion H; subst.
      split; [reflexivity|].
      destruct (Deserialize_rows_appends _ _ _ _ _ _ _ E1)
        as [_ [new [Hr Hl]]].
      exists count, rest, new. auto.
    + rewrite (Deserialize_prefix_error b data _ _ _ E0 eq_refl) in H.
      inversion H.
  - intros count rest b1 x d E E1.
    rewrite (Deserialize_after_prefix b data count rest E), E1.
    reflexivity.
Qed.

(** C10.  For a buffer whose prefix decodes to a negative count,
    [Deserialize] leaves the block as it was and the cursor behind the
    prefix; the status is OK when no byte follows the prefix and the
    corruption error when one does. *)
Theorem Deserialize_negative_count
    (b : Block) (data : bytes) (count : Z) (rest : bytes) :
  CQLDecodeNum data 0 = (OK, count, rest) ->
  count < 0 ->
  Deserialize' YQL_CLIENT_CQL b data =
  Returns (match rest with
           | [] => OK
           | _ :: _ => Error Corruption "Extra data at the end of row block"
           end, b, rest).
Proof.
  intros E Hneg. rewrite (Deserialize_after_prefix b data count rest E).
  replace (Z.to_nat count) with O by lia.
  cbn. destruct rest; reflexivity.
Qed.

(** C4, amended.  For every buffer that [Deserialize] accepts and whose
    prefix decodes to a count that is not negative, [GetRowCount] returns
    OK and the number of rows that [Deserialize] appended to the block. *)
Theorem GetRowCount_counts_deserialized_rows
    (b : Block) (data : bytes) (b' : Block) (data' : bytes)
    (count : Z) (rest : bytes) (count0 : Z) :
  Deserialize' YQL_CLIENT_CQL b data = Returns (OK, b', data') ->
  CQLDecodeNum data 0 = (OK, count, rest) ->
  0 <= count ->
  GetRowCount YQL_CLIENT_CQL data count0
  = Returns (OK, Z.of_nat (length (rows_ b') - length (rows_ b))).
Proof.
  intros H E Hpos.
  rewrite (Deserialize_after_prefix b data count rest E) in H.
  destruct (Deserialize_rows' YQL_CLIENT_CQL (Z.to_nat count) b rest)
    as [[[s1 b1] d1]|f] eqn:E1; [|discriminate].
  cbn [obind fst snd] in H.
  destruct s1 as [|code msg]; cbn [status_ok] in H; [|inversion H].
  assert (b1 = b') as -> by (destruct d1; inversion H; reflexivity).
  destruct (Deserialize_rows_appends _ _ _ _ _ _ _ E1)
    as [_ [new [Hr Hl]]].
  specialize (Hl eq_refl).
  unfold GetRowCount. cbn [CHECK_EQ_CQL is_cql obind]. rewrite E.
  cbn [status_ok].
  destruct (CQLDecodeNum_ok _ _ _ _ _ E eq_refl) as (_ & Hrange & _).
  rewrite to_size_t_id by lia.
  rewrite Hr, length_app, Hl. do 2 f_equal. lia.
Qed.

End Framing.

(** ** Serialization, and the round trip through a value codec that
       decodes what it encodes *)

Section Codec.

Variable DataType : Type.
Variable QLValue : Type.
Variable QLValue_default : QLValue.
Variable QLValue_encode : DataType -> QLClient -> QLValue -> bytes.
Variable QLValue_Deserialize :
  DataType -> QLClient -> QLValue -> bytes -> Status * QLValue * bytes.

(** The values the codec round-trips at a column type. *)
Variable value_ok : DataType -> QLValue -> Prop.

(** What the block-level round trip asks of the value codec: a value that
    [value_ok] admits is decoded from its own encoding, whatever value
    was stored before and whatever bytes follow, and those bytes are left
    in the cursor. *)
Hypothesis decode_encode :
  forall (t : DataType) (v old : QLValue) (rest : bytes),
    value_ok t v ->
    QLValue_Deserialize t YQL_CLIENT_CQL old
      (QLValue_encode t YQL_CLIENT_CQL v ++ rest) = (OK, v, rest).

Abbreviation Row := (QLRow DataType QLValue).
Abbreviation Block := (QLRowBlock DataType QLValue).
Abbreviation Deserialize_rows' :=
  (Deserialize_rows QLValue_default QLValue_Deserialize).
Abbreviation Deserialize' := (Deserialize QLValue_default QLValue_Deserialize).
Abbreviation Serialize' := (Serialize QLValue_encode).
Abbreviation row_encoding' := (row_encoding QLValue_encode).
Abbreviation rows_encoding' := (rows_encoding QLValue_encode).
Abbreviation encode_col :=
  (fun (client : QLClient) (c : ColumnSchema DataType) (v : QLValue) =>
     QLValue_encode (col_type c) client v).

Lemma QLRow_Serialize_from_spec (client : QLClient)
    (cols : list (ColumnSchema DataType)) :
  forall (col_idx : nat) (values : list QLValue) (buffer : bytes),
    (length cols <= length (drop col_idx values))%nat ->
    QLRow_Serialize_from QLValue_encode client cols col_idx values buffer
    = Returns (buffer ++ concat (zip_with (encode_col client) cols
                                   (drop col_idx values))).
Proof.
  induction cols as [|c cols IH]; intros col_idx values buffer Hlen.
  - cbn. rewrite app_nil_r. reflexivity.
  - cbn [QLRow_Serialize_from].
    destruct (values !! col_idx) as [v|] eqn:E.
    + rewrite (drop_S _ _ _ E) in Hlen |- *.
      cbn [zip_with concat length] in Hlen |- *.
      rewrite IH by lia. rewrite <- app_assoc. reflexivity.
    + apply lookup_ge_None in E. rewrite drop_ge in Hlen by lia.
      cbn in Hlen. lia.
Qed.

Lemma QLRow_Serialize_spec (client : QLClient) (row : Row) (buffer : bytes) :
  row_inv row ->
  QLRow_Serialize QLValue_encode client row buffer
  = Returns (buffer ++ row_encoding' client row).
Proof.
  intros Hinv. unfold QLRow_Serialize, row_encoding.
  rewrite QLRow_Serialize_from_spec.
  - rewrite drop_0. reflexivity.
  - rewrite drop_0. unfold row_inv, num_columns in Hinv. lia.
Qed.

Lemma Serialize_rows_spec (client : QLClient) (rows : list Row) :
  Forall row_inv rows ->
  forall buffer : bytes,
    Serialize_rows QLValue_encode client rows buffer
    = Returns (buffer ++ rows_encoding' client rows).
Proof.
  induction 1 as [|row rows Hrow _ IH]; intros buffer.
  - cbn. rewrite app_nil_r. reflexivity.
  - cbn [Serialize_rows]. rewrite QLRow_Serialize_spec by exact Hrow.
    cbn [obind]. rewrite IH. unfold rows_encoding. cbn [map concat].
    rewrite <- app_assoc. reflexivity.
Qed.

(** [Serialize] on rows that keep the class invariant: the count as the
    [int32_t] it is passed for, then the rows. *)
Lemma Serialize_spec (b : Block) (buffer : bytes) :
  Forall row_inv (rows_ b) ->
  Serialize' YQL_CLIENT_CQL b buffer
  = Returns (buffer
             ++ Store32 (to_uint32 (to_int32 (Z.of_nat (length (rows_ b)))))
             ++ rows_encoding' YQL_CLIENT_CQL (rows_ b)).
Proof.
  intros Hinv. unfold Serialize. cbn [CHECK_EQ_CQL is_cql obind].
  rewrite Serialize_rows_spec by exact Hinv.
  unfold CQLEncodeLength. rewrite <- app_assoc. reflexivity.
Qed.

Lemma count_fits (n : nat) :
  Z.of_nat n <= INT32_MAX ->
  to_uint32 (to_int32 (Z.of_nat n)) = Z.of_nat n
  /\ to_int32 (Z.of_nat n) = Z.of_nat n.
Proof.
  intros H.
  assert (Hid : to_int32 (Z.of_nat n) = Z.of_nat n)
    by (apply to_int32_id; unfold INT32_MIN; lia).
  rewrite Hid. split; [apply to_uint32_id; lia|reflexivity].
Qed.

(** C6, amended.  For every block of at most 2^31 - 1 rows, each keeping
    the class invariant of [QLRow], [Serialize] appends to the buffer the
    four bytes of the row count, most significant byte first, which read
    back as a signed 32-bit number are the row count, and then the
    encodings of the rows in block order, each the encodings of the row's
    values in the column order of its schema; a block of zero rows is
    serialized from the empty buffer to the four bytes of the count 0. *)
Theorem Serialize_layout (b : Block) (buffer : bytes) :
  Forall row_inv (rows_ b) ->
  Z.of_nat (length (rows_ b)) <= INT32_MAX ->
  let n := Z.of_nat (length (rows_ b)) in
  Serialize' YQL_CLIENT_CQL b buffer
  = Returns (buffer ++ Store32 n
             ++ concat (map (fun row : Row =>
                               concat (zip_with
                                         (fun c v =>
                                            QLValue_encode (col_type c)
                                              YQL_CLIENT_CQL v)
                                         (row_schema_ row) (values_ row)))
                          (rows_ b)))
  /\ length (Store32 n) = 4%nat
  /\ (forall tl : bytes, CQLDecodeNum (Store32 n ++ tl) 0 = (OK, n, tl))
  /\ (rows_ b = [] ->
      Serialize' YQL_CLIENT_CQL b [] = Returns [x00; x00; x00; x00]).
Proof.
  intros Hinv Hfit n. destruct (count_fits _ Hfit) as [Hu Hi]. fold n in Hu, Hi.
  repeat split.
  - rewrite Serialize_spec by exact Hinv. fold n. rewrite Hu. reflexivity.
  - intros tl. rewrite <- Hu at 1. rewrite CQLDecodeNum_Store32.
    rewrite to_int32_id by apply to_int32_range. rewrite Hi. reflexivity.
  - intros Hnil. rewrite Serialize_spec by exact Hinv. rewrite Hnil.
    reflexivity.
Qed.

Lemma row_valid_inv (schema : Schema DataType) (row : Row) :
  row_valid value_ok schema row -> row_inv row.
Proof.
  intros [Hs Hv]. unfold row_inv, num_columns. rewrite Hs.
  symmetry. exact (Forall2_length _ _ _ Hv).
Qed.

Lemma rows_valid_inv (schema : Schema DataType) (rows : list Row) :
  Forall (row_valid value_ok schema) rows -> Forall row_inv rows.
Proof.
  intros H. eapply Forall_impl; [exact H|]. apply row_valid_inv.
Qed.

(** The loop of [QLRow::Deserialize] on the encodings of admitted values:
    the values are stored at the columns the loop visits, the other slots
    are kept. *)
Lemma QLRow_Deserialize_from_encode
    (cols : list (ColumnSchema DataType)) (vs : list QLValue) :
  Forall2 (fun c v => value_ok (col_type c) v) cols vs ->
  forall (col_idx : nat) (values : list QLValue) (rest : bytes),
    (col_idx + length cols <= length values)%nat ->
    QLRow_Deserialize_from QLValue_Deserialize YQL_CLIENT_CQL cols col_idx
      values (concat (zip_with (encode_col YQL_CLIENT_CQL) cols vs) ++ rest)
    = Returns (OK,
               take col_idx values ++ vs
               ++ drop (col_idx + length cols) values,
               rest).
Proof.
  induction 1 as [|c v cols vs Hok _ IH]; intros col_idx values rest Hlen.
  - cbn. rewrite Nat.add_0_r, take_drop. reflexivity.
  - cbn [QLRow_Deserialize_from zip_with concat length] in Hlen |- *.
    destruct (lookup_lt_is_Some_2 values col_idx) as [old Hold]; [lia|].
    rewrite Hold, <- app_assoc, decode_encode by exact Hok.
    cbn [status_ok].
    rewrite IH by (rewrite length_insert; lia).
    rewrite (take_S_r _ _ v)
      by (apply list_lookup_insert_eq; lia).
    rewrite take_insert_ge by lia.
    rewrite drop_insert_lt by lia.
    rewrite <- app_assoc.
    replace (S col_idx + length cols)%nat
      with (col_idx + S (length cols))%nat by lia.
    reflexivity.
Qed.

Lemma QLRow_Deserialize_encode (schema : Schema DataType) (row : Row)
    (rest : bytes) :
  row_valid value_ok schema row ->
  QLRow_Deserialize QLValue_Deserialize YQL_CLIENT_CQL
    (QLRow_new QLValue_default schema)
    (row_encoding' YQL_CLIENT_CQL row ++ rest)
  = Returns (OK, row, rest).
Proof.
  intros [Hs Hv]. destruct row as [rs vs]. cbn in Hs, Hv. subst rs.
  unfold QLRow_Deserialize, row_encoding, QLRow_new.
  cbn [row_schema_ values_].
  rewrite (QLRow_Deserialize_from_encode _ _ Hv)
    by (rewrite length_replicate; unfold num_columns; lia).
  cbn [obind]. rewrite take_0.
  rewrite drop_ge by (rewrite length_replicate; unfold num_columns; lia).
  rewrite app_nil_r. reflexivity.
Qed.

Lemma Deserialize_rows_encode (rows : list Row) :
  forall (b : Block) (rest : bytes),
    Forall (row_valid value_ok (schema_ b)) rows ->
    Deserialize_rows' YQL_CLIENT_CQL (length rows) b
      (rows_encoding' YQL_CLIENT_CQL rows ++ rest)
    = Returns (OK, {| schema_ := schema_ b; rows_ := rows_ b ++ rows |},
               rest).
Proof.
  induction rows as [|row rows IH]; intros b rest Hv.
  - cbn. rewrite app_nil_r. destruct b; reflexivity.
  - inversion Hv as [|? ? Hrow Hrows]; subst.
    cbn [length]. rewrite Deserialize_rows_S.
    unfold rows_encoding. cbn [map concat]. rewrite <- app_assoc.
    rewrite QLRow_Deserialize_encode by exact Hrow.
    cbn [obind fst snd status_ok].
    fold (rows_encoding' YQL_CLIENT_CQL rows).
    rewrite IH by exact Hrows.
    cbn [schema_ rows_]. rewrite <- app_assoc. reflexivity.
Qed.

(** Decoding the count [length rows] followed by the encodings of valid
    rows into a fresh block gives the rows. *)
Lemma Deserialize_encoding (schema : Schema DataType) (rows : list Row) :
  Forall (row_valid value_ok schema) rows ->
  Z.of_nat (length rows) <= INT32_MAX ->
  Deserialize' YQL_CLIENT_CQL (QLRowBlock_new schema)
    (Store32 (Z.of_nat (length rows)) ++ rows_encoding' YQL_CLIENT_CQL rows)
  = Returns (OK, {| schema_ := schema; rows_ := rows |}, []).
Proof.
  intros Hv Hfit. destruct (count_fits _ Hfit) as [Hu Hi].
  rewrite (Deserialize_after_prefix _ _ _ _ _ _ (Z.of_nat (length rows))
             (rows_encoding' YQL_CLIENT_CQL rows)).
  - rewrite Nat2Z.id.
    rewrite <- (app_nil_r (rows_encoding' YQL_CLIENT_CQL rows)).
    rewrite Deserialize_rows_encode by exact Hv. reflexivity.
  - rewrite <- Hu at 1. rewrite CQLDecodeNum_Store32.
    rewrite to_int32_id by apply to_int32_range. rewrite Hi. reflexivity.
Qed.

(** C2, amended.  For every schema and every sequence of at most
    2^31 - 1 rows valid under it, [Serialize] under the supported dialect
    returns a buffer, and [Deserialize] of that buffer into a fresh block
    on the schema returns OK with an empty cursor and a block whose rows
    are the sequence, row for row and value for value. *)
Theorem Deserialize_Serialize_roundtrip
    (schema : Schema DataType) (rows : list Row) :
  Forall (row_valid value_ok schema) rows ->
  Z.of_nat (length rows) <= INT32_MAX ->
  exists buffer : bytes,
    Serialize' YQL_CLIENT_CQL {| schema_ := schema; rows_ := rows |} []
    = Returns buffer
    /\ Deserialize' YQL_CLIENT_CQL (QLRowBlock_new schema) buffer
       = Returns (OK, {| schema_ := schema; rows_ := rows |}, []).
Proof.
  intros Hv Hfit. destruct (count_fits _ Hfit) as [Hu Hi].
  eexists. split.
  - rewrite Serialize_spec by (exact (rows_valid_inv _ _ Hv)).
    cbn [rows_ app]. rewrite Hu. reflexivity.
  - apply Deserialize_encoding; assumption.
Qed.

Lemma CQLDecodeNum_count (n : Z) (tl : bytes) (val : Z) :
  0 <= n <= INT32_MAX ->
  CQLDecodeNum (Store32 n ++ tl) val = (OK, n, tl).
Proof.
  intros H. rewrite <- (to_uint32_id n) at 1 by exact H.
  rewrite CQLDecodeNum_Store32.
  rewrite to_int32_id by (unfold INT32_MIN; lia). reflexivity.
Qed.

Lemma rows_encoding_app (client : QLClient) (rows1 rows2 : list Row) :
  rows_encoding' client (rows1 ++ rows2)
  = rows_encoding' client rows1 ++ rows_encoding' client rows2.
Proof.
  unfold rows_encoding. rewrite map_app, concat_app. reflexivity.
Qed.

(** C1, amended.  For blocks on one schema holding [a > 0] and [c > 0]
    valid rows with [a + c <= 2^31 - 1], with encodings [A] and [C]:
    [AppendRowsData(A, into = C)] returns OK; the destination is then the
    four bytes of [a + c] followed by the bytes of [C] behind its prefix
    and the bytes of [A] behind its prefix; [Deserialize] of it into a
    fresh block gives the rows of [C] followed by the rows of [A]; and
    [GetRowCount] on it returns [a + c]. *)
Theorem AppendRowsData_merges
    (schema : Schema DataType) (rowsA rowsC : list Row) (count0 : Z) :
  Forall (row_valid value_ok schema) rowsA ->
  Forall (row_valid value_ok schema) rowsC ->
  0 < Z.of_nat (length rowsA) ->
  0 < Z.of_nat (length rowsC) ->
  Z.of_nat (length rowsA) + Z.of_nat (length rowsC) <= INT32_MAX ->
  exists A C dst : bytes,
    Serialize' YQL_CLIENT_CQL {| schema_ := schema; rows_ := rowsA |} []
    = Returns A
    /\ Serialize' YQL_CLIENT_CQL {| schema_ := schema; rows_ := rowsC |} []
       = Returns C
    /\ AppendRowsData YQL_CLIENT_CQL A C = Returns (OK, dst)
    /\ dst = Store32 (Z.of_nat (length rowsA) + Z.of_nat (length rowsC))
             ++ drop 4 C ++ drop 4 A
    /\ Deserialize' YQL_CLIENT_CQL (QLRowBlock_new schema) dst
       = Returns (OK, {| schema_ := schema; rows_ := rowsC ++ rowsA |}, [])
    /\ GetRowCount YQL_CLIENT_CQL dst count0
       = Returns (OK, Z.of_nat (length rowsA) + Z.of_nat (length rowsC)).
Proof.
  intros HvA HvC HposA HposC Hfit.
  set (a := Z.of_nat (length rowsA)) in *.
  set (c := Z.of_nat (length rowsC)) in *.
  assert (HfitA : Z.of_nat (length rowsA) <= INT32_MAX) by (fold a; lia).
  assert (HfitC : Z.of_nat (length rowsC) <= INT32_MAX) by (fold c; lia).
  destruct (count_fits _ HfitA) as [HuA _].
  destruct (count_fits _ HfitC) as [HuC _].
  fold a in HuA. fold c in HuC.
  set (encA := rows_encoding' YQL_CLIENT_CQL rowsA).
  set (encC := rows_encoding' YQL_CLIENT_CQL rowsC).
  assert (Hsum : Z.of_nat (length (rowsC ++ rowsA)) = a + c)
    by (rewrite length_app; unfold a, c; lia).
  exists (Store32 a ++ encA), (Store32 c ++ encC),
         (Store32 (a + c) ++ encC ++ encA).
  split; [|split; [|split; [|split; [|split]]]].
  - rewrite Serialize_spec by (exact (rows_valid_inv _ _ HvA)).
    cbn [rows_ app]. fold a. rewrite HuA. reflexivity.
  - rewrite Serialize_spec by (exact (rows_valid_inv _ _ HvC)).
    cbn [rows_ app]. fold c. rewrite HuC. reflexivity.
  - rewrite AppendRowsData_cases.
    rewrite CQLDecodeNum_count by lia.
    destruct (Z.ltb_spec 0 a) as [_|Hle]; [|lia].
    rewrite CQLDecodeNum_count by lia.
    destruct (Z.eqb_spec c 0) as [Hz|_]; [lia|].
    unfold CQLEncodeLength_at, int32_add.
    rewrite <- app_assoc, overwrite_Store32.
    rewrite to_int32_id by (unfold INT32_MIN; lia).
    rewrite to_uint32_id by lia.
    rewrite (Z.add_comm c a). reflexivity.
  - reflexivity.
  - subst encA encC. rewrite <- Hsum, <- rows_encoding_app.
    apply Deserialize_encoding.
    + apply Forall_app. split; assumption.
    + rewrite Hsum. exact Hfit.
  - unfold GetRowCount. cbn [CHECK_EQ_CQL is_cql obind].
    rewrite CQLDecodeNum_count by lia. cbn [status_ok].
    rewrite to_size_t_id by lia. reflexivity.
Qed.

End Codec.

(** ** Blocks on the schema without columns

    A row without columns has no bytes, so a block of such rows is its
    count prefix alone, at every row count. *)

Section NoColumns.

Variable DataType : Type.
Variable QLValue : Type.
Variable QLValue_default : QLValue.
Variable QLValue_encode : DataType -> QLClient -> QLValue -> bytes.
Variable QLValue_Deserialize :
  DataType -> QLClient -> QLValue -> bytes -> Status * QLValue * bytes.

Abbreviation row0 := (@QLRow_new DataType QLValue QLValue_default []).

Lemma rows_encoding_no_columns (client : QLClient) (n : nat) :
  rows_encoding QLValue_encode client (replicate n row0) = [].
Proof.
  induction n as [|n IH]; [reflexivity|].
  unfold rows_encoding in *. cbn [replicate map concat]. rewrite IH.
  reflexivity.
Qed.

Lemma Serialize_no_columns (n : nat) (buffer : bytes) :
  Serialize QLValue_encode YQL_CLIENT_CQL
    {| schema_ := []; rows_ := replicate n row0 |} buffer
  = Returns (buffer ++ Store32 (to_uint32 (to_int32 (Z.of_nat n)))).
Proof.
  rewrite Serialize_spec.
  - cbn [rows_]. rewrite rows_encoding_no_columns, length_replicate.
    rewrite app_nil_r. reflexivity.
  - cbn [rows_]. apply Forall_replicate. reflexivity.
Qed.

Lemma Deserialize_rows_no_columns (n : nat) :
  forall (rows : list (QLRow DataType QLValue)) (data : bytes),
    Deserialize_rows QLValue_default QLValue_Deserialize YQL_CLIENT_CQL n
      {| schema_ := []; rows_ := rows |} data
    = Returns (OK, {| schema_ := []; rows_ := rows ++ replicate n row0 |},
               data).
Proof.
  induction n as [|n IH]; intros rows data.
  - cbn [Deserialize_rows replicate]. rewrite app_nil_r. reflexivity.
  - rewrite Deserialize_rows_S. cbn [schema_ rows_].
    unfold QLRow_Deserialize. cbn [QLRow_new row_schema_ values_ num_columns
      length replicate QLRow_Deserialize_from obind fst snd status_ok].
    rewrite IH. rewrite <- app_assoc. reflexivity.
Qed.

Lemma Deserialize_no_columns (count : Z) (data : bytes) :
  CQLDecodeNum data 0 = (OK, count, []) ->
  Deserialize QLValue_default QLValue_Deserialize YQL_CLIENT_CQL
    (QLRowBlock_new []) data
  = Returns (OK, {| schema_ := []; rows_ := replicate (Z.to_nat count) row0 |},
             []).
Proof.
  intros E. rewrite (Deserialize_after_prefix _ _ _ _ _ _ count [] E).
  unfold QLRowBlock_new. rewrite Deserialize_rows_no_columns. reflexivity.
Qed.

End NoColumns.

(** ** The statements on concrete buffers *)

Lemma Sample_decode_encode
    (t : Sample.DataType) (v old : Sample.QLValue) (rest : bytes) :
  Sample.value_ok t v ->
  Sample.QLValue_Deserialize t YQL_CLIENT_CQL old
    (Sample.QLValue_encode t YQL_CLIENT_CQL v ++ rest) = (OK, v, rest).
Proof.
  intros _. destruct v as [b|]; reflexivity.
Qed.

(** A row bound to two columns is taken into a block on the schema
    without columns. *)
Example AddRow_other_schema :
  AddRow (Sample.block Sample.no_columns [])
    (Sample.row Sample.two_columns [Some x05; None])
  = (OK, Sample.block Sample.no_columns
           [Sample.row Sample.two_columns [Some x05; None]]).
Proof. reflexivity. Qed.

Lemma Sample_rows_valid :
  Forall (row_valid Sample.value_ok Sample.two_columns) Sample.rows_5n_79
  /\ Forall (row_valid Sample.value_ok Sample.two_columns) Sample.rows_23.
Proof.
  split; repeat constructor.
Defined.

Lemma Sample_empty_rows_valid (n : Z) :
  Forall (row_valid Sample.value_ok Sample.no_columns) (Sample.empty_rows n).
Proof.
  apply Forall_replicate. split; [reflexivity|]. constructor.
Qed.

Lemma Sample_empty_rows_length (n : Z) :
  0 <= n -> Z.of_nat (length (Sample.empty_rows n)) = n.
Proof.
  intros H. unfold Sample.empty_rows. rewrite length_replicate.
  apply Z2Nat.id. exact H.
Qed.

Lemma Sample_Serialize_empty_rows (n : Z) :
  0 <= n ->
  Sample.Serialize YQL_CLIENT_CQL
    (Sample.block Sample.no_columns (Sample.empty_rows n)) []
  = Returns (Store32 (to_uint32 (to_int32 n))).
Proof.
  intros H.
  unfold Sample.Serialize, Sample.block, Sample.empty_rows, Sample.empty_row,
    Sample.no_columns.
  rewrite Serialize_no_columns. rewrite Z2Nat.id by exact H. reflexivity.
Qed.

Lemma Sample_Deserialize_no_columns (count : Z) (data : bytes) :
  CQLDecodeNum data 0 = (OK, count, []) ->
  Sample.Deserialize YQL_CLIENT_CQL (QLRowBlock_new Sample.no_columns) data
  = Returns (OK, Sample.block Sample.no_columns (Sample.empty_rows count), []).
Proof.
  intros E. unfold Sample.Deserialize, Sample.no_columns.
  rewrite (Deserialize_no_columns _ _ _ _ count data E). reflexivity.
Qed.

Lemma Serialize_layout_witness :
  Forall row_inv Sample.rows_5n_79
  /\ Z.of_nat (length Sample.rows_5n_79) <= INT32_MAX
  /\ Sample.Serialize YQL_CLIENT_CQL
       (Sample.block Sample.two_columns Sample.rows_5n_79) []
     = Returns Sample.encoded_5n_79
  /\ CQLDecodeNum Sample.encoded_5n_79 0
     = (OK, 2, [x01; x05; x00; x01; x07; x01; x09]).
Proof.
  assert (Hinv : Forall row_inv
                   (rows_ (Sample.block Sample.two_columns Sample.rows_5n_79)))
    by (repeat constructor).
  assert (Hfit : Z.of_nat (length
                   (rows_ (Sample.block Sample.two_columns Sample.rows_5n_79)))
                 <= INT32_MAX)
    by (unfold INT32_MAX; cbn; lia).
  destruct (Serialize_layout _ _ Sample.QLValue_encode
              (Sample.block Sample.two_columns Sample.rows_5n_79) []
              Hinv Hfit) as (H1 & _ & H3 & _).
  split; [exact Hinv|]. split; [exact Hfit|]. split.
  - exact H1.
  - exact (H3 [x01; x05; x00; x01; x07; x01; x09]).
Defined.

Lemma Deserialize_Serialize_roundtrip_witness :
  Forall (row_valid Sample.value_ok Sample.two_columns) Sample.rows_5n_79
  /\ Z.of_nat (length Sample.rows_5n_79) <= INT32_MAX
  /\ exists buffer : bytes,
       Sample.Serialize YQL_CLIENT_CQL
         (Sample.block Sample.two_columns Sample.rows_5n_79) []
       = Returns buffer
       /\ Sample.Deserialize YQL_CLIENT_CQL
            (QLRowBlock_new Sample.two_columns) buffer
          = Returns (OK, Sample.block Sample.two_columns Sample.rows_5n_79,
                     []).
Proof.
  assert (Hfit : Z.of_nat (length Sample.rows_5n_79) <= INT32_MAX)
    by (unfold INT32_MAX; cbn; lia).
  split; [exact (proj1 Sample_rows_valid)|]. split; [exact Hfit|].
  exact (Deserialize_Serialize_roundtrip _ _ Sample.QLValue_default
           Sample.QLValue_encode Sample.QLValue_Deserialize Sample.value_ok
           Sample_decode_encode Sample.two_columns Sample.rows_5n_79
           (proj1 Sample_rows_valid) Hfit).
Defined.

Lemma AppendRowsData_merges_witness :
  exists A C dst : bytes,
    Sample.Serialize YQL_CLIENT_CQL
      (Sample.block Sample.two_columns Sample.rows_23) [] = Returns A
    /\ Sample.Serialize YQL_CLIENT_CQL
         (Sample.block Sample.two_columns Sample.rows_5n_79) [] = Returns C
    /\ AppendRowsData YQL_CLIENT_CQL A C = Returns (OK, dst)
    /\ dst = Store32 (1 + 2) ++ drop 4 C ++ drop 4 A
    /\ Sample.Deserialize YQL_CLIENT_CQL (QLRowBlock_new Sample.two_columns)
         dst
       = Returns (OK,
                  Sample.block Sample.two_columns
                    (Sample.rows_5n_79 ++ Sample.rows_23), [])
    /\ GetRowCount YQL_CLIENT_CQL dst 0 = Returns (OK, 1 + 2).
Proof.
  apply (AppendRowsData_merges _ _ Sample.QLValue_default
           Sample.QLValue_encode Sample.QLValue_Deserialize Sample.value_ok
           Sample_decode_encode Sample.two_columns Sample.rows_23
           Sample.rows_5n_79 0
           (proj2 Sample_rows_valid) (proj1 Sample_rows_valid)).
  - cbn. lia.
  - cbn. lia.
  - unfold INT32_MAX. cbn. lia.
Defined.

Lemma Deserialize_rejects_leftover_witness :
  (exists (count : Z) (rest : bytes)
          (new : list (QLRow Sample.DataType Sample.QLValue)),
      CQLDecodeNum Sample.encoded_5n_79 0 = (OK, count, rest)
      /\ Deserialize_rows Sample.QLValue_default Sample.QLValue_Deserialize
           YQL_CLIENT_CQL (Z.to_nat count)
           (QLRowBlock_new Sample.two_columns) rest
         = Returns (OK, Sample.block Sample.two_columns Sample.rows_5n_79, [])
      /\ Sample.rows_5n_79 = [] ++ new
      /\ length new = Z.to_nat count)
  /\ Sample.Deserialize YQL_CLIENT_CQL (QLRowBlock_new Sample.two_columns)
       (Sample.encoded_5n_79 ++ [x00])
     = Returns (Error Corruption "Extra data at the end of row block",
                Sample.block Sample.two_columns Sample.rows_5n_79, [x00]).
Proof.
  split.
  - apply (proj1 (Deserialize_rejects_leftover _ _ Sample.QLValue_default
                    Sample.QLValue_Deserialize
                    (QLRowBlock_new Sample.two_columns) Sample.encoded_5n_79)
             (Sample.block Sample.two_columns Sample.rows_5n_79) []).
    reflexivity.
  - apply (proj2 (Deserialize_rejects_leftover _ _ Sample.QLValue_default
                    Sample.QLValue_Deserialize
                    (QLRowBlock_new Sample.two_columns)
                    (Sample.encoded_5n_79 ++ [x00]))
             2 [x01; x05; x00; x01; x07; x01; x09; x00]).
    + reflexivity.
    + reflexivity.
Defined.

Lemma Deserialize_negative_count_witness :
  CQLDecodeNum [xff; xff; xff; xfe] 0 = (OK, -2, [])
  /\ -2 < 0
  /\ Sample.Deserialize YQL_CLIENT_CQL
       (Sample.block Sample.two_columns Sample.rows_23) [xff; xff; xff; xfe]
     = Returns (OK, Sample.block Sample.two_columns Sample.rows_23, []).
Proof.
  split; [reflexivity|]. split; [lia|].
  apply (Deserialize_negative_count _ _ Sample.QLValue_default
           Sample.QLValue_Deserialize
           (Sample.block Sample.two_columns Sample.rows_23)
           [xff; xff; xff; xfe] (-2) []).
  - reflexivity.
  - lia.
Defined.

Lemma GetRowCount_counts_deserialized_rows_witness :
  Sample.Deserialize YQL_CLIENT_CQL
    (Sample.block Sample.two_columns Sample.rows_23) Sample.encoded_5n_79
  = Returns (OK,
             Sample.block Sample.two_columns
               (Sample.rows_23 ++ Sample.rows_5n_79), [])
  /\ GetRowCount YQL_CLIENT_CQL Sample.encoded_5n_79 0 = Returns (OK, 2).
Proof.
  split; [reflexivity|].
  apply (GetRowCount_counts_deserialized_rows _ _ Sample.QLValue_default
           Sample.QLValue_Deserialize
           (Sample.block Sample.two_columns Sample.rows_23) Sample.encoded_5n_79
           (Sample.block Sample.two_columns
              (Sample.rows_23 ++ Sample.rows_5n_79)) []
           2 [x01; x05; x00; x01; x07; x01; x09] 0).
  - reflexivity.
  - reflexivity.
  - lia.
Defined.

(** ** Where the count leaves the range of [int32_t] *)

(** C6 as stated fails on a block of 2^31 rows: the four bytes that
    [Serialize] emits are 80 00 00 00, which as a signed 32-bit number are
    -2^31 and not the row count. *)
Lemma Serialize_count_counterexample :
  Forall row_inv (Sample.empty_rows 2147483648)
  /\ Z.of_nat (length (Sample.empty_rows 2147483648)) = 2147483648
  /\ Sample.Serialize YQL_CLIENT_CQL
       (Sample.block Sample.no_columns (Sample.empty_rows 2147483648)) []
     = Returns [x80; x00; x00; x00]
  /\ CQLDecodeNum [x80; x00; x00; x00] 0 = (OK, -2147483648, []).
Proof.
  split; [|split; [|split]].
  - apply Forall_replicate. reflexivity.
  - apply Sample_empty_rows_length. lia.
  - rewrite Sample_Serialize_empty_rows by lia. reflexivity.
  - reflexivity.
Qed.

(** C2 as stated fails on 2^31 rows valid under the schema without
    columns: [Serialize] returns 80 00 00 00, and [Deserialize] of these
    bytes into a fresh block returns OK with no row at all. *)
Lemma Deserialize_Serialize_counterexample :
  Forall (row_valid Sample.value_ok Sample.no_columns)
    (Sample.empty_rows 2147483648)
  /\ Sample.Serialize YQL_CLIENT_CQL
       (Sample.block Sample.no_columns (Sample.empty_rows 2147483648)) []
     = Returns [x80; x00; x00; x00]
  /\ Sample.Deserialize YQL_CLIENT_CQL (QLRowBlock_new Sample.no_columns)
       [x80; x00; x00; x00]
     = Returns (OK, Sample.block Sample.no_columns [], [])
  /\ Sample.empty_rows 2147483648 <> [].
Proof.
  split; [|split; [|split]].
  - apply Sample_empty_rows_valid.
  - rewrite Sample_Serialize_empty_rows by lia. reflexivity.
  - reflexivity.
  - intros H. apply (f_equal (fun l => Z.of_nat (length l))) in H.
    rewrite Sample_empty_rows_length in H by lia. discriminate H.
Qed.

(** C4 as stated fails on the buffer ff ff ff ff, a prefix of -1 and
    nothing behind it: [Deserialize] accepts it and appends no row, and
    [GetRowCount] returns 2^64 - 1.  It fails as well on the encoding
    that [Serialize] gives for 2^31 rows without columns. *)
Lemma GetRowCount_negative_counterexample :
  (Sample.Deserialize YQL_CLIENT_CQL (QLRowBlock_new Sample.two_columns)
     [xff; xff; xff; xff]
   = Returns (OK, Sample.block Sample.two_columns [], [])
   /\ GetRowCount YQL_CLIENT_CQL [xff; xff; xff; xff] 0
      = Returns (OK, 18446744073709551615))
  /\ (Sample.Serialize YQL_CLIENT_CQL
        (Sample.block Sample.no_columns (Sample.empty_rows 2147483648)) []
      = Returns [x80; x00; x00; x00]
      /\ Sample.Deserialize YQL_CLIENT_CQL (QLRowBlock_new Sample.no_columns)
           [x80; x00; x00; x00]
         = Returns (OK, Sample.block Sample.no_columns [], [])
      /\ GetRowCount YQL_CLIENT_CQL [x80; x00; x00; x00] 0
         = Returns (OK, 18446744071562067968)).
Proof.
  split; [split; reflexivity|].
  split; [|split; reflexivity].
  rewrite Sample_Serialize_empty_rows by lia. reflexivity.
Qed.

(** C1 as stated fails for [a = 2^31 - 1] and [c = 1] on the schema
    without columns: [A] is 7f ff ff ff and [C] is 00 00 00 01, both
    accepted by [Deserialize] with the rows they were serialized from;
    the merged destination is 80 00 00 00, on which [GetRowCount] returns
    2^64 - 2^31 and not [a + c = 2^31], and from which [Deserialize]
    gives no row. *)
Lemma AppendRowsData_overflow_counterexample :
  Forall (row_valid Sample.value_ok Sample.no_columns)
    (Sample.empty_rows 2147483647)
  /\ Forall (row_valid Sample.value_ok Sample.no_columns)
       (Sample.empty_rows 1)
  /\ Z.of_nat (length (Sample.empty_rows 2147483647)) = 2147483647
  /\ Z.of_nat (length (Sample.empty_rows 1)) = 1
  /\ Sample.Serialize YQL_CLIENT_CQL
       (Sample.block Sample.no_columns (Sample.empty_rows 2147483647)) []
     = Returns [x7f; xff; xff; xff]
  /\ Sample.Serialize YQL_CLIENT_CQL
       (Sample.block Sample.no_columns (Sample.empty_rows 1)) []
     = Returns [x00; x00; x00; x01]
  /\ Sample.Deserialize YQL_CLIENT_CQL (QLRowBlock_new Sample.no_columns)
       [x7f; xff; xff; xff]
     = Returns (OK,
                Sample.block Sample.no_columns (Sample.empty_rows 2147483647),
                [])
  /\ Sample.Deserialize YQL_CLIENT_CQL (QLRowBlock_new Sample.no_columns)
       [x00; x00; x00; x01]
     = Returns (OK, Sample.block Sample.no_columns (Sample.empty_rows 1), [])
  /\ AppendRowsData YQL_CLIENT_CQL [x7f; xff; xff; xff] [x00; x00; x00; x01]
     = Returns (OK, [x80; x00; x00; x00])
  /\ GetRowCount YQL_CLIENT_CQL [x80; x00; x00; x00] 0
     = Returns (OK, 18446744071562067968)
  /\ 18446744071562067968 <> 2147483647 + 1
  /\ Sample.Deserialize YQL_CLIENT_CQL (QLRowBlock_new Sample.no_columns)
       [x80; x00; x00; x00]
     = Returns (OK, Sample.block Sample.no_columns [], [])
  /\ Sample.empty_rows 1 ++ Sample.empty_rows 2147483647 <> [].
Proof.
  repeat match goal with |- _ /\ _ => split end.
  - apply Sample_empty_rows_valid.
  - apply Sample_empty_rows_valid.
  - apply Sample_empty_rows_length. lia.
  - apply Sample_empty_rows_length. lia.
  - rewrite Sample_Serialize_empty_rows by lia. reflexivity.
  - rewrite Sample_Serialize_empty_rows by lia. reflexivity.
  - apply Sample_Deserialize_no_columns. reflexivity.
  - apply Sample_Deserialize_no_columns. reflexivity.
  - reflexivity.
  - reflexivity.
  - discriminate.
  - reflexivity.
  - intros H. apply (f_equal (fun l => Z.of_nat (length l))) in H.
    rewrite length_app, Nat2Z.inj_add in H.
    rewrite !Sample_empty_rows_length in H by lia. discriminate H.
Qed.

(** * Further properties of the row block *)

(** ** What [Deserialize] does to the block, whatever the codec *)

Section Growth.

Variable DataType : Type.
Variable QLValue : Type.
Variable QLValue_default : QLValue.
Variable QLValue_Deserialize :
  DataType -> QLClient -> QLValue -> bytes -> Status * QLValue * bytes.

Abbreviation Row := (QLRow DataType QLValue).
Abbreviation Block := (QLRowBlock DataType QLValue).
Abbreviation Deserialize_rows' :=
  (Deserialize_rows QLValue_default QLValue_Deserialize).
Abbreviation Deserialize' := (Deserialize QLValue_default QLValue_Deserialize).

(** With a slot for every column it visits, the loop of
    [QLRow::Deserialize] returns, and the number of slots is kept. *)
Lemma QLRow_Deserialize_from_returns (client : QLClient)
    (cols : list (ColumnSchema DataType)) :
  forall (col_idx : nat) (values : list QLValue) (data : bytes),
    (col_idx + length cols <= length values)%nat ->
    exists (s : Status) (values' : list QLValue) (data' : bytes),
      QLRow_Deserialize_from QLValue_Deserialize client cols col_idx values
        data = Returns (s, values', data')
      /\ length values' = length values.
Proof.
  induction cols as [|c cols IH]; intros col_idx values data Hlen.
  - cbn. eauto.
  - cbn [QLRow_Deserialize_from length] in Hlen |- *.
    destruct (lookup_lt_is_Some_2 values col_idx) as [old Hold]; [lia|].
    rewrite Hold.
    destruct (QLValue_Deserialize (col_type c) client old data)
      as [[s v'] data1].
    destruct (status_ok s).
    + destruct (IH (S col_idx) (<[col_idx := v']> values) data1)
        as (s' & values' & data' & E & Hl);
        [rewrite length_insert; lia|].
      rewrite length_insert in Hl. eauto.
    + eexists _, _, _. split; [reflexivity|]. apply length_insert.
Qed.

Lemma QLRow_Deserialize_new_returns (client : QLClient)
    (schema : Schema DataType) (data : bytes) :
  exists (s : Status) (row' : Row) (data' : bytes),
    QLRow_Deserialize QLValue_Deserialize client
      (QLRow_new QLValue_default schema) data = Returns (s, row', data')
    /\ made_for schema row'.
Proof.
  unfold QLRow_Deserialize, QLRow_new. cbn [row_schema_ values_].
  destruct (QLRow_Deserialize_from_returns client schema 0
              (replicate (num_columns schema) QLValue_default) data)
    as (s & values' & data' & E & Hl).
  { rewrite length_replicate. unfold num_columns. lia. }
  rewrite E. cbn [obind]. eexists _, _, _. split; [reflexivity|].
  split; [reflexivity|]. unfold row_inv. cbn [row_schema_ values_].
  rewrite Hl. apply length_replicate.
Qed.

(** The loop of [Deserialize] returns; it keeps the schema and the former
    rows, the rows on top are made for the schema of the block, there are
    [n] of them when the status is OK, and between 1 and [n] otherwise. *)
Lemma Deserialize_rows_grows (client : QLClient) (n : nat) :
  forall (b : Block) (data : bytes),
    exists (s : Status) (b' : Block) (data' : bytes) (new : list Row),
      Deserialize_rows' client n b data = Returns (s, b', data')
      /\ schema_ b' = schema_ b
      /\ rows_ b' = rows_ b ++ new
      /\ Forall (made_for (schema_ b)) new
      /\ (status_ok s = true -> length new = n)
      /\ (status_ok s = false -> (1 <= length new <= n)%nat).
Proof.
  induction n as [|n IH]; intros b data.
  - exists OK, b, data, []. cbn. rewrite app_nil_r.
    repeat split; auto. discriminate.
  - rewrite Deserialize_rows_S.
    destruct (QLRow_Deserialize_new_returns client (schema_ b) data)
      as (s1 & row' & data1 & E & Hrow).
    rewrite E. cbn [obind fst snd].
    destruct (status_ok s1) eqn:Es1.
    + destruct (IH {| schema_ := schema_ b; rows_ := rows_ b ++ [row'] |}
                  data1)
        as (s & b' & data' & new & E' & Hs & Hr & Hnew & Hok & Herr).
      cbn [schema_ rows_] in Hs, Hr, Hnew.
      exists s, b', data', (row' :: new). rewrite E'.
      split; [reflexivity|]. split; [exact Hs|].
      split; [rewrite Hr, <- app_assoc; reflexivity|].
      split; [constructor; assumption|].
      split; intros H; cbn [length].
      * rewrite Hok by exact H. reflexivity.
      * specialize (Herr H). lia.
    + eexists s1, _, data1, [row'].
      split; [reflexivity|]. cbn [schema_ rows_ length].
      split; [reflexivity|]. split; [reflexivity|].
      split; [constructor; [exact Hrow|constructor]|].
      split; intros H; [congruence|lia].
Qed.

(** X1.  Under the supported dialect [Deserialize] returns on every block
    and every buffer, for every value codec: the rows it decodes into are
    the rows [Extend] has just made, so [values_.at] never throws. *)
Theorem Deserialize_returns (b : Block) (data : bytes) :
  exists (s : Status) (b' : Block) (data' : bytes),
    Deserialize' YQL_CLIENT_CQL b data = Returns (s, b', data').
Proof.
  destruct (CQLDecodeNum data 0) as [[s0 count] rest] eqn:E0.
  destruct s0 as [|code msg].
  - rewrite (Deserialize_after_prefix _ _ _ _ b data count rest E0).
    destruct (Deserialize_rows_grows YQL_CLIENT_CQL (Z.to_nat count) b rest)
      as (s & b' & data' & new & E & _).
    rewrite E. cbn [obind fst snd].
    destruct (status_ok s); [destruct data'|]; eauto.
  - rewrite (Deserialize_prefix_error _ _ _ _ b data _ _ _ E0 eq_refl).
    eauto.
Qed.

(** X2.  Whatever status [Deserialize] returns, it has only appended: the
    schema of the block is kept, the former rows are the first rows of
    the block in their order, and every row on top is bound to the schema
    of the block with one value for each of its columns; so a block whose
    rows were all of that kind stays one. *)
Theorem Deserialize_append_only
    (client : QLClient) (b : Block) (data : bytes)
    (s : Status) (b' : Block) (data' : bytes) :
  Deserialize' client b data = Returns (s, b', data') ->
  schema_ b' = schema_ b
  /\ (exists new : list Row,
        rows_ b' = rows_ b ++ new
        /\ Forall (made_for (schema_ b)) new)
  /\ (block_inv b -> block_inv b').
Proof.
  destruct client as [|k]; [|discriminate].
  intros H.
  assert (Hmain : schema_ b' = schema_ b
                  /\ exists new : list Row,
                       rows_ b' = rows_ b ++ new
                       /\ Forall (made_for (schema_ b)) new).
  { destruct (CQLDecodeNum data 0) as [[s0 count] rest] eqn:E0.
    destruct s0 as [|code msg].
    - rewrite (Deserialize_after_prefix _ _ _ _ b data count rest E0) in H.
      destruct (Deserialize_rows_grows YQL_CLIENT_CQL (Z.to_nat count) b rest)
        as (s1 & b1 & d1 & new & E & Hs & Hr & Hnew & _).
      rewrite E in H. cbn [obind fst snd] in H.
      assert (b1 = b') as <-
          by (destruct (status_ok s1); [destruct d1|]; inversion H;
              reflexivity).
      split; [exact Hs|]. exists new. auto.
    - rewrite (Deserialize_prefix_error _ _ _ _ b data _ _ _ E0 eq_refl) in H.
      inversion H; subst. split; [reflexivity|].
      exists []. rewrite app_nil_r. split; [reflexivity|constructor]. }
  destruct Hmain as [Hs [new [Hr Hnew]]].
  split; [exact Hs|]. split; [exists new; split; assumption|].
  unfold block_inv. rewrite Hr, Hs. intros Hinv.
  apply Forall_app. split; assumption.
Qed.

(** X3.  When the prefix has decoded to a positive count and [Deserialize]
    returns a status that is not OK, the block is not what it was: at
    least one row and at most the declared number of rows have come on
    top of the former rows. *)
Theorem Deserialize_error_leaves_rows
    (b : Block) (data : bytes) (count : Z) (rest : bytes)
    (s : Status) (b' : Block) (data' : bytes) :
  CQLDecodeNum data 0 = (OK, count, rest) ->
  0 < count ->
  Deserialize' YQL_CLIENT_CQL b data = Returns (s, b', data') ->
  s <> OK ->
  exists new : list Row,
    rows_ b' = rows_ b ++ new
    /\ (1 <= length new <= Z.to_nat count)%nat.
Proof.
  intros E0 Hpos H Hs.
  rewrite (Deserialize_after_prefix _ _ _ _ b data count rest E0) in H.
  destruct (Deserialize_rows_grows YQL_CLIENT_CQL (Z.to_nat count) b rest)
    as (s1 & b1 & d1 & new & E & _ & Hr & _ & Hok & Herr).
  rewrite E in H. cbn [obind fst snd] in H.
  exists new.
  destruct (status_ok s1) eqn:Es1.
  - specialize (Hok eq_refl).
    destruct d1; inversion H; subst; [congruence|].
    split; [exact Hr|lia].
  - inversion H; subst. split; [exact Hr|]. apply Herr. reflexivity.
Qed.

(** X4.  [Deserialize] returns the block as it was exactly when the
    prefix does not decode or decodes to a count that is not positive. *)
Theorem Deserialize_unchanged_iff
    (b : Block) (data : bytes) (s : Status) (b' : Block) (data' : bytes) :
  Deserialize' YQL_CLIENT_CQL b data = Returns (s, b', data') ->
  b' = b <->
  (status_ok (CQLDecodeNum data 0).1.1 = false
   \/ (CQLDecodeNum data 0).1.2 <= 0).
Proof.
  intros H.
  destruct (CQLDecodeNum data 0) as [[s0 count] rest] eqn:E0.
  cbn [fst snd].
  destruct s0 as [|code msg].
  - rewrite (Deserialize_after_prefix _ _ _ _ b data count rest E0) in H.
    destruct (Deserialize_rows_grows YQL_CLIENT_CQL (Z.to_nat count) b rest)
      as (s1 & b1 & d1 & new & E & Hsch & Hr & _ & Hok & Herr).
    rewrite E in H. cbn [obind fst snd] in H.
    assert (b1 = b') as ->
        by (destruct (status_ok s1); [destruct d1|]; inversion H;
            reflexivity).
    split.
    + intros ->. right.
      apply (f_equal (@length _)) in Hr. rewrite length_app in Hr.
      destruct (status_ok s1); [specialize (Hok eq_refl)|
                                specialize (Herr eq_refl)]; lia.
    + intros [Hf|Hle]; [discriminate|].
      assert (Hn : Z.to_nat count = O) by lia.
      assert (Hnil : new = []).
      { destruct (status_ok s1);
          [specialize (Hok eq_refl)|specialize (Herr eq_refl)];
          [|lia]. destruct new; [reflexivity|cbn in Hok; lia]. }
      subst new. rewrite app_nil_r in Hr.
      destruct b', b. cbn in *. congruence.
  - rewrite (Deserialize_prefix_error _ _ _ _ b data _ _ _ E0 eq_refl) in H.
    inversion H; subst. split; auto.
Qed.

End Growth.

(** ** The merge on buffers of any content *)

(** The destination of a merge as bytes: the count bytes of the sum, the
    bytes of the destination behind its prefix, the bytes of the source
    behind its prefix. *)
Lemma AppendRowsData_formula
    (src dst : bytes) (a c : Z) (ra rc : bytes) :
  CQLDecodeNum src 0 = (OK, a, ra) ->
  CQLDecodeNum dst 0 = (OK, c, rc) ->
  0 < a -> c <> 0 -> a + c <= INT32_MAX ->
  AppendRowsData YQL_CLIENT_CQL src dst
  = Returns (OK, Store32 (to_uint32 (a + c)) ++ rc ++ ra).
Proof.
  intros Ea Ec Ha Hc Hfit.
  rewrite AppendRowsData_cases, Ea.
  destruct (Z.ltb_spec 0 a) as [_|Hle]; [|lia].
  rewrite Ec. destruct (Z.eqb_spec c 0) as [Hz|_]; [contradiction|].
  destruct (CQLDecodeNum_ok _ _ _ _ _ Ea eq_refl) as (_ & Hra & _).
  destruct (CQLDecodeNum_ok _ _ _ _ _ Ec eq_refl)
    as (_ & Hrc & b0 & b1 & b2 & b3 & ->).
  unfold CQLEncodeLength_at, int32_add.
  rewrite to_int32_id by (unfold INT32_MIN, INT32_MAX in *; lia).
  rewrite (Z.add_comm c a). reflexivity.
Qed.

Lemma CQLDecodeNum_length (data : bytes) (val c : Z) (rest : bytes) :
  CQLDecodeNum data val = (OK, c, rest) ->
  length data = (4 + length rest)%nat /\ drop 4 data = rest.
Proof.
  intros E. destruct (CQLDecodeNum_ok _ _ _ _ _ E eq_refl)
    as (_ & _ & b0 & b1 & b2 & b3 & ->).
  split; reflexivity.
Qed.

(** X5.  For buffers of any content whose prefixes decode to a source
    count [a > 0] and a destination count [c <> 0] with
    [a + c <= 2^31 - 1], the merge returns OK without a look at the rows:
    the prefix of the destination then decodes to [a + c] with the
    cursor on the former bytes of the destination behind its prefix
    followed by those of the source, the destination has grown by the
    length of the source less the four prefix bytes, and [GetRowCount]
    returns [a + c] as a [size_t]. *)
Theorem AppendRowsData_on_buffers
    (src dst : bytes) (a c : Z) (ra rc : bytes) (count0 : Z) :
  CQLDecodeNum src 0 = (OK, a, ra) ->
  CQLDecodeNum dst 0 = (OK, c, rc) ->
  0 < a -> c <> 0 -> a + c <= INT32_MAX ->
  exists dst' : bytes,
    AppendRowsData YQL_CLIENT_CQL src dst = Returns (OK, dst')
    /\ CQLDecodeNum dst' 0 = (OK, a + c, rc ++ ra)
    /\ drop 4 dst' = drop 4 dst ++ drop 4 src
    /\ length dst' = (length dst + length src - 4)%nat
    /\ GetRowCount YQL_CLIENT_CQL dst' count0
       = Returns (OK, to_size_t (a + c)).
Proof.
  intros Ea Ec Ha Hc Hfit.
  rewrite (AppendRowsData_formula src dst a c ra rc Ea Ec Ha Hc Hfit).
  destruct (CQLDecodeNum_ok _ _ _ _ _ Ea eq_refl) as (_ & Hra & _).
  destruct (CQLDecodeNum_ok _ _ _ _ _ Ec eq_refl) as (_ & Hrc & _).
  destruct (CQLDecodeNum_length _ _ _ _ Ea) as [Hla Hda].
  destruct (CQLDecodeNum_length _ _ _ _ Ec) as [Hlc Hdc].
  assert (Hdec : forall v,
             CQLDecodeNum (Store32 (to_uint32 (a + c)) ++ rc ++ ra) v
             = (OK, a + c, rc ++ ra)).
  { intros v. rewrite CQLDecodeNum_Store32.
    rewrite to_int32_id by (unfold INT32_MIN, INT32_MAX in *; lia).
    reflexivity. }
  eexists. split; [reflexivity|]. split; [apply Hdec|].
  split; [rewrite Hda, Hdc; reflexivity|].
  split.
  - rewrite Hla, Hlc, !length_app.
    change (length (Store32 (to_uint32 (a + c)))) with 4%nat. lia.
  - unfold GetRowCount. cbn [CHECK_EQ_CQL is_cql obind].
    rewrite Hdec. reflexivity.
Qed.

Lemma AppendRowsData_on_buffers_witness :
  CQLDecodeNum [x00; x00; x00; x01; x01; x2a] 0 = (OK, 1, [x01; x2a])
  /\ CQLDecodeNum [xff; xff; xff; xfe; x07] 0 = (OK, -2, [x07])
  /\ exists dst' : bytes,
       AppendRowsData YQL_CLIENT_CQL [x00; x00; x00; x01; x01; x2a]
         [xff; xff; xff; xfe; x07] = Returns (OK, dst')
       /\ CQLDecodeNum dst' 0 = (OK, 1 + -2, [x07] ++ [x01; x2a])
       /\ drop 4 dst' = drop 4 [xff; xff; xff; xfe; x07]
                        ++ drop 4 [x00; x00; x00; x01; x01; x2a]
       /\ length dst' = (5 + 6 - 4)%nat
       /\ GetRowCount YQL_CLIENT_CQL dst' 0
          = Returns (OK, to_size_t (1 + -2)).
Proof.
  split; [reflexivity|]. split; [reflexivity|].
  apply (AppendRowsData_on_buffers [x00; x00; x00; x01; x01; x2a]
           [xff; xff; xff; xfe; x07] 1 (-2) [x01; x2a] [x07] 0).
  - reflexivity.
  - reflexivity.
  - lia.
  - lia.
  - unfold INT32_MAX. lia.
Defined.

(** X6.  Merging is associative on buffers of any content with positive
    counts whose sum is at most 2^31 - 1: merging [A] and then [B] into
    [C] leaves in [C] the bytes that merging into [C] the result of
    merging [B] into [A] leaves. *)
Theorem AppendRowsData_assoc
    (A B C : bytes) (a b c : Z) (ra rb rc : bytes) :
  CQLDecodeNum A 0 = (OK, a, ra) ->
  CQLDecodeNum B 0 = (OK, b, rb) ->
  CQLDecodeNum C 0 = (OK, c, rc) ->
  0 < a -> 0 < b -> 0 < c -> a + b + c <= INT32_MAX ->
  exists CA AB CAB : bytes,
    AppendRowsData YQL_CLIENT_CQL A C = Returns (OK, CA)
    /\ AppendRowsData YQL_CLIENT_CQL B CA = Returns (OK, CAB)
    /\ AppendRowsData YQL_CLIENT_CQL B A = Returns (OK, AB)
    /\ AppendRowsData YQL_CLIENT_CQL AB C = Returns (OK, CAB).
Proof.
  intros Ea Eb Ec Ha Hb Hc Hfit.
  assert (Hdec : forall n tl v,
             0 <= n <= INT32_MAX ->
             CQLDecodeNum (Store32 (to_uint32 n) ++ tl) v = (OK, n, tl)).
  { intros n tl v Hn. rewrite CQLDecodeNum_Store32.
    rewrite to_int32_id by (unfold INT32_MIN; lia). reflexivity. }
  exists (Store32 (to_uint32 (a + c)) ++ rc ++ ra),
         (Store32 (to_uint32 (b + a)) ++ ra ++ rb),
         (Store32 (to_uint32 (b + (a + c))) ++ (rc ++ ra) ++ rb).
  split; [apply AppendRowsData_formula; auto; lia|].
  split.
  { apply (AppendRowsData_formula B _ b (a + c) rb (rc ++ ra)); auto;
      try lia. apply Hdec. lia. }
  split; [apply AppendRowsData_formula; auto; lia|].
  rewrite (AppendRowsData_formula _ C (b + a) c (ra ++ rb) rc);
    auto; try lia.
  - rewrite <- !app_assoc.
    replace (b + a + c) with (b + (a + c)) by lia. reflexivity.
  - apply Hdec. lia.
Qed.

Lemma AppendRowsData_assoc_witness :
  exists CA AB CAB : bytes,
    AppendRowsData YQL_CLIENT_CQL [x00; x00; x00; x01; x0a]
      [x00; x00; x00; x03; x0c] = Returns (OK, CA)
    /\ AppendRowsData YQL_CLIENT_CQL [x00; x00; x00; x02; x0b] CA
       = Returns (OK, CAB)
    /\ AppendRowsData YQL_CLIENT_CQL [x00; x00; x00; x02; x0b]
         [x00; x00; x00; x01; x0a] = Returns (OK, AB)
    /\ AppendRowsData YQL_CLIENT_CQL AB [x00; x00; x00; x03; x0c]
       = Returns (OK, CAB).
Proof.
  apply (AppendRowsData_assoc [x00; x00; x00; x01; x0a]
           [x00; x00; x00; x02; x0b] [x00; x00; x00; x03; x0c]
           1 2 3 [x0a] [x0b] [x0c]).
  - reflexivity.
  - reflexivity.
  - reflexivity.
  - lia.
  - lia.
  - lia.
  - unfold INT32_MAX. lia.
Defined.

(** ** Serialization without a look at the decoder *)

Section Encoding.

Variable DataType : Type.
Variable QLValue : Type.
Variable QLValue_encode : DataType -> QLClient -> QLValue -> bytes.

Abbreviation Row := (QLRow DataType QLValue).
Abbreviation Block := (QLRowBlock DataType QLValue).
Abbreviation Serialize' := (Serialize QLValue_encode).

(** What is appended for a buffer is appended for a longer one. *)
Abbreviation behind buffer m :=
  (obind m (fun out : bytes => Returns (buffer ++ out))).

Lemma QLRow_Serialize_from_behind (client : QLClient)
    (cols : list (ColumnSchema DataType)) :
  forall (col_idx : nat) (values : list QLValue) (buffer acc : bytes),
    QLRow_Serialize_from QLValue_encode client cols col_idx values
      (buffer ++ acc)
    = behind buffer
        (QLRow_Serialize_from QLValue_encode client cols col_idx values acc).
Proof.
  induction cols as [|c cols IH]; intros col_idx values buffer acc.
  - reflexivity.
  - cbn [QLRow_Serialize_from].
    destruct (values !! col_idx) as [v|]; [|reflexivity].
    rewrite <- app_assoc. apply IH.
Qed.

Lemma Serialize_rows_behind (client : QLClient) (rows : list Row) :
  forall buffer acc : bytes,
    Serialize_rows QLValue_encode client rows (buffer ++ acc)
    = behind buffer (Serialize_rows QLValue_encode client rows acc).
Proof.
  induction rows as [|row rows IH]; intros buffer acc.
  - reflexivity.
  - cbn [Serialize_rows]. unfold QLRow_Serialize.
    rewrite QLRow_Serialize_from_behind.
    destruct (QLRow_Serialize_from _ _ _ _ _ acc) as [out|f];
      [|reflexivity].
    cbn [obind]. apply IH.
Qed.

(** X7.  [Serialize] only appends, under every dialect and for every row:
    called on a buffer that holds bytes already, it returns those bytes
    followed by what it returns on the empty buffer, and it fails on the
    one when it fails on the other. *)
Theorem Serialize_appends (client : QLClient) (b : Block) (buffer : bytes) :
  Serialize' client b buffer
  = obind (Serialize' client b []) (fun out => Returns (buffer ++ out)).
Proof.
  unfold Serialize. destruct client as [|k]; [|reflexivity].
  cbn [CHECK_EQ_CQL is_cql obind]. unfold CQLEncodeLength.
  rewrite Serialize_rows_behind. reflexivity.
Qed.

(** X8.  For two blocks of rows that keep the class invariant, with
    [a > 0] and [c > 0] rows and [a + c <= 2^31 - 1], merging the
    encoding of the first into the encoding of the second leaves in the
    destination, byte for byte, what [Serialize] returns for the rows of
    the second followed by the rows of the first; no property of the
    value codec is used. *)
Theorem AppendRowsData_is_Serialize_of_concat (bA bC : Block) :
  Forall row_inv (rows_ bA) ->
  Forall row_inv (rows_ bC) ->
  0 < Z.of_nat (length (rows_ bA)) ->
  0 < Z.of_nat (length (rows_ bC)) ->
  Z.of_nat (length (rows_ bA)) + Z.of_nat (length (rows_ bC)) <= INT32_MAX ->
  exists A C M : bytes,
    Serialize' YQL_CLIENT_CQL bA [] = Returns A
    /\ Serialize' YQL_CLIENT_CQL bC [] = Returns C
    /\ Serialize' YQL_CLIENT_CQL
         {| schema_ := schema_ bC; rows_ := rows_ bC ++ rows_ bA |} []
       = Returns M
    /\ AppendRowsData YQL_CLIENT_CQL A C = Returns (OK, M).
Proof.
  intros HiA HiC HposA HposC Hfit.
  assert (HiM : Forall row_inv (rows_ bC ++ rows_ bA))
    by (apply Forall_app; split; assumption).
  destruct (count_fits (length (rows_ bA))) as [HuA _]; [lia|].
  destruct (count_fits (length (rows_ bC))) as [HuC _]; [lia|].
  destruct (count_fits (length (rows_ bC ++ rows_ bA))) as [HuM _];
    [rewrite length_app; lia|].
  eexists _, _, _.
  split; [apply Serialize_spec; exact HiA|].
  split; [apply Serialize_spec; exact HiC|].
  split; [apply Serialize_spec; exact HiM|].
  cbn [rows_ app]. rewrite HuA, HuC, HuM.
  rewrite (AppendRowsData_formula _ _ (Z.of_nat (length (rows_ bA)))
             (Z.of_nat (length (rows_ bC)))
             (rows_encoding QLValue_encode YQL_CLIENT_CQL (rows_ bA))
             (rows_encoding QLValue_encode YQL_CLIENT_CQL (rows_ bC)));
    try lia.
  - rewrite rows_encoding_app, length_app, Nat2Z.inj_add.
    rewrite to_uint32_id by lia.
    rewrite (Z.add_comm (Z.of_nat (length (rows_ bC)))). reflexivity.
  - apply CQLDecodeNum_count. lia.
  - apply CQLDecodeNum_count. lia.
Qed.

(** X9.  On what [Serialize] returns for a block of at most 2^31 - 1 rows
    that keep the class invariant, [GetRowCount] returns OK and the
    number of rows of the block, whatever the value codec. *)
Theorem GetRowCount_of_Serialize (b : Block) (count0 : Z) :
  Forall row_inv (rows_ b) ->
  Z.of_nat (length (rows_ b)) <= INT32_MAX ->
  exists out : bytes,
    Serialize' YQL_CLIENT_CQL b [] = Returns out
    /\ GetRowCount YQL_CLIENT_CQL out count0
       = Returns (OK, Z.of_nat (length (rows_ b))).
Proof.
  intros Hinv Hfit. destruct (count_fits _ Hfit) as [Hu _].
  eexists. split; [apply Serialize_spec; exact Hinv|].
  cbn [app]. rewrite Hu.
  unfold GetRowCount. cbn [CHECK_EQ_CQL is_cql obind].
  rewrite CQLDecodeNum_count by lia. cbn [status_ok].
  rewrite to_size_t_id by lia. reflexivity.
Qed.

End Encoding.

(** ** Decoding what was encoded, into any block *)

Section Decoding.

Variable DataType : Type.
Variable QLValue : Type.
Variable QLValue_default : QLValue.
Variable QLValue_encode : DataType -> QLClient -> QLValue -> bytes.
Variable QLValue_Deserialize :
  DataType -> QLClient -> QLValue -> bytes -> Status * QLValue * bytes.
Variable value_ok : DataType -> QLValue -> Prop.

Hypothesis decode_encode :
  forall (t : DataType) (v old : QLValue) (rest : bytes),
    value_ok t v ->
    QLValue_Deserialize t YQL_CLIENT_CQL old
      (QLValue_encode t YQL_CLIENT_CQL v ++ rest) = (OK, v, rest).

Abbreviation Row := (QLRow DataType QLValue).
Abbreviation Deserialize' := (Deserialize QLValue_default QLValue_Deserialize).
Abbreviation Serialize' := (Serialize QLValue_encode).

(** [Deserialize] on an encoding followed by any bytes: the rows come on
    top of the rows of the block, and the bytes are left in the cursor. *)
Lemma Deserialize_encoding_then (schema : Schema DataType)
    (rows0 rows : list Row) (rest : bytes) :
  Forall (row_valid value_ok schema) rows ->
  Z.of_nat (length rows) <= INT32_MAX ->
  exists buffer : bytes,
    Serialize' YQL_CLIENT_CQL {| schema_ := schema; rows_ := rows |} []
    = Returns buffer
    /\ Deserialize' YQL_CLIENT_CQL {| schema_ := schema; rows_ := rows0 |}
         (buffer ++ rest)
       = Returns (match rest with
                  | [] => OK
                  | _ :: _ =>
                      Error Corruption "Extra data at the end of row block"
                  end,
                  {| schema_ := schema; rows_ := rows0 ++ rows |}, rest).
Proof.
  intros Hv Hfit. destruct (count_fits _ Hfit) as [Hu _].
  eexists. split.
  - apply Serialize_spec. exact (rows_valid_inv _ _ _ _ _ Hv).
  - cbn [rows_ app]. rewrite Hu, <- app_assoc.
    rewrite (Deserialize_after_prefix _ _ _ _ _ _
               (Z.of_nat (length rows))
               (rows_encoding QLValue_encode YQL_CLIENT_CQL rows ++ rest))
      by (apply CQLDecodeNum_count; lia).
    rewrite Nat2Z.id.
    rewrite (Deserialize_rows_encode _ _ QLValue_default QLValue_encode
               QLValue_Deserialize value_ok decode_encode rows
               {| schema_ := schema; rows_ := rows0 |} rest Hv).
    cbn [obind fst snd status_ok schema_ rows_].
    destruct rest; reflexivity.
Qed.

(** X10.  With a value codec that decodes what it encodes: when one byte
    or more follows the encoding of at most 2^31 - 1 valid rows,
    [Deserialize] returns the corruption error, with every row of the
    encoding decoded onto the block and the bytes that followed left in
    the cursor. *)
Theorem Deserialize_trailing_bytes (schema : Schema DataType)
    (rows0 rows : list Row) (x : byte) (extra : bytes) :
  Forall (row_valid value_ok schema) rows ->
  Z.of_nat (length rows) <= INT32_MAX ->
  exists buffer : bytes,
    Serialize' YQL_CLIENT_CQL {| schema_ := schema; rows_ := rows |} []
    = Returns buffer
    /\ Deserialize' YQL_CLIENT_CQL {| schema_ := schema; rows_ := rows0 |}
         (buffer ++ x :: extra)
       = Returns (Error Corruption "Extra data at the end of row block",
                  {| schema_ := schema; rows_ := rows0 ++ rows |},
                  x :: extra).
Proof.
  intros Hv Hfit.
  exact (Deserialize_encoding_then schema rows0 rows (x :: extra) Hv Hfit).
Qed.

(** X11.  With a value codec that decodes what it encodes: [Deserialize]
    of the encoding of at most 2^31 - 1 valid rows into a block that
    holds rows already, of whatever kind, returns OK and leaves the
    former rows followed by the decoded rows. *)
Theorem Deserialize_onto_rows (schema : Schema DataType)
    (rows0 rows : list Row) :
  Forall (row_valid value_ok schema) rows ->
  Z.of_nat (length rows) <= INT32_MAX ->
  exists buffer : bytes,
    Serialize' YQL_CLIENT_CQL {| schema_ := schema; rows_ := rows |} []
    = Returns buffer
    /\ Deserialize' YQL_CLIENT_CQL {| schema_ := schema; rows_ := rows0 |}
         buffer
       = Returns (OK, {| schema_ := schema; rows_ := rows0 ++ rows |}, []).
Proof.
  intros Hv Hfit.
  destruct (Deserialize_encoding_then schema rows0 rows [] Hv Hfit)
    as (buffer & HS & HD).
  exists buffer. rewrite app_nil_r in HD. split; assumption.
Qed.

End Decoding.

Lemma Deserialize_trailing_bytes_witness :
  exists buffer : bytes,
    Sample.Serialize YQL_CLIENT_CQL
      (Sample.block Sample.two_columns Sample.rows_5n_79) []
    = Returns buffer
    /\ Sample.Deserialize YQL_CLIENT_CQL
         (Sample.block Sample.two_columns Sample.rows_23)
         (buffer ++ [x00; x07])
       = Returns (Error Corruption "Extra data at the end of row block",
                  Sample.block Sample.two_columns
                    (Sample.rows_23 ++ Sample.rows_5n_79),
                  [x00; x07]).
Proof.
  apply (Deserialize_trailing_bytes _ _ Sample.QLValue_default
           Sample.QLValue_encode Sample.QLValue_Deserialize Sample.value_ok
           Sample_decode_encode Sample.two_columns Sample.rows_23
           Sample.rows_5n_79 x00 [x07] (proj1 Sample_rows_valid)).
  unfold INT32_MAX. cbn. lia.
Defined.

Lemma Deserialize_onto_rows_witness :
  exists buffer : bytes,
    Sample.Serialize YQL_CLIENT_CQL
      (Sample.block Sample.two_columns Sample.rows_5n_79) []
    = Returns buffer
    /\ Sample.Deserialize YQL_CLIENT_CQL
         (Sample.block Sample.two_columns Sample.rows_23) buffer
       = Returns (OK,
                  Sample.block Sample.two_columns
                    (Sample.rows_23 ++ Sample.rows_5n_79), []).
Proof.
  apply (Deserialize_onto_rows _ _ Sample.QLValue_default
           Sample.QLValue_encode Sample.QLValue_Deserialize Sample.value_ok
           Sample_decode_encode Sample.two_columns Sample.rows_23
           Sample.rows_5n_79 (proj1 Sample_rows_valid)).
  unfold INT32_MAX. cbn. lia.
Defined.

(** ** Encoding what was decoded *)

Lemma byte_of_to_Z (b : byte) : byte_of_Z (byte_to_Z b) = b.
Proof.
  unfold byte_of_Z, byte_to_Z.
  pose proof (Byte.to_N_bounded b) as Hb.
  rewrite Z.mod_small by lia. rewrite N2Z.id, Byte.of_to_N. reflexivity.
Qed.

Lemma byte_of_Z_eq (x : Z) (b : byte) :
  x mod 256 = byte_to_Z b -> byte_of_Z x = b.
Proof.
  intros H. rewrite <- (byte_of_to_Z b).
  unfold byte_of_Z at 1 2. rewrite H.
  pose proof (byte_to_Z_range b). rewrite (Z.mod_small (byte_to_Z b)) by lia.
  reflexivity.
Qed.

Lemma Store32_Load32 (b0 b1 b2 b3 : byte) :
  Store32 (Load32 b0 b1 b2 b3) = [b0; b1; b2; b3].
Proof.
  pose proof (byte_to_Z_range b0). pose proof (byte_to_Z_range b1).
  pose proof (byte_to_Z_range b2). pose proof (byte_to_Z_range b3).
  unfold Store32, Load32.
  change (2 ^ 24) with 16777216. change (2 ^ 16) with 65536.
  change (2 ^ 8) with 256.
  repeat f_equal; apply byte_of_Z_eq; Z.div_mod_to_equations; lia.
Qed.

(** A buffer whose prefix decodes is the four bytes of the decoded count
    followed by the cursor. *)
Lemma CQLDecodeNum_canonical (data : bytes) (val c : Z) (rest : bytes) :
  CQLDecodeNum data val = (OK, c, rest) ->
  data = Store32 (to_uint32 c) ++ rest.
Proof.
  unfold CQLDecodeNum.
  destruct data as [|b0 [|b1 [|b2 [|b3 tl]]]]; intros E; inversion E; subst.
  replace (to_uint32 (to_int32 (Load32 b0 b1 b2 b3)))
    with (Load32 b0 b1 b2 b3).
  - rewrite Store32_Load32. reflexivity.
  - pose proof (byte_to_Z_range b0). pose proof (byte_to_Z_range b1).
    pose proof (byte_to_Z_range b2). pose proof (byte_to_Z_range b3).
    unfold to_uint32, to_int32, Load32.
    change (2 ^ 24) with 16777216. change (2 ^ 16) with 65536.
    change (2 ^ 8) with 256. change (2 ^ 32) with 4294967296.
    change (2 ^ 31) with 2147483648.
    match goal with |- _ = (if ?c then _ else _) mod _ => destruct c end;
      Z.div_mod_to_equations; lia.
Qed.

Section Canonical.

Variable DataType : Type.
Variable QLValue : Type.
Variable QLValue_default : QLValue.
Variable QLValue_encode : DataType -> QLClient -> QLValue -> bytes.
Variable QLValue_Deserialize :
  DataType -> QLClient -> QLValue -> bytes -> Status * QLValue * bytes.

(** What this direction asks of the value codec: whenever a value is
    decoded with status OK, the bytes taken from the cursor are the
    encoding of that value. *)
Hypothesis decode_sound :
  forall (t : DataType) (old v : QLValue) (data rest : bytes),
    QLValue_Deserialize t YQL_CLIENT_CQL old data = (OK, v, rest) ->
    data = QLValue_encode t YQL_CLIENT_CQL v ++ rest.

Abbreviation Row := (QLRow DataType QLValue).
Abbreviation Block := (QLRowBlock DataType QLValue).
Abbreviation Deserialize_rows' :=
  (Deserialize_rows QLValue_default QLValue_Deserialize).
Abbreviation Deserialize' := (Deserialize QLValue_default QLValue_Deserialize).
Abbreviation Serialize' := (Serialize QLValue_encode).
Abbreviation encode_cql :=
  (fun (c : ColumnSchema DataType) (v : QLValue) =>
     QLValue_encode (col_type c) YQL_CLIENT_CQL v).

Lemma QLRow_Deserialize_from_sound (cols : list (ColumnSchema DataType)) :
  forall (col_idx : nat) (values : list QLValue) (data : bytes)
         (values' : list QLValue) (rest : bytes),
    (col_idx + length cols <= length values)%nat ->
    QLRow_Deserialize_from QLValue_Deserialize YQL_CLIENT_CQL cols col_idx
      values data = Returns (OK, values', rest) ->
    length values' = length values
    /\ take col_idx values' = take col_idx values
    /\ data = concat (zip_with encode_cql cols (drop col_idx values'))
              ++ rest.
Proof.
  induction cols as [|c cols IH];
    intros col_idx values data values' rest Hlen H.
  - cbn in H. inversion H; subst. auto.
  - cbn [QLRow_Deserialize_from length] in Hlen, H.
    destruct (lookup_lt_is_Some_2 values col_idx) as [old Hold]; [lia|].
    rewrite Hold in H.
    destruct (QLValue_Deserialize (col_type c) YQL_CLIENT_CQL old data)
      as [[s v'] d1] eqn:Ed.
    destruct s as [|code msg]; cbn [status_ok] in H; [|inversion H].
    apply decode_sound in Ed.
    apply IH in H; [|rewrite length_insert; lia].
    destruct H as (Hl & Ht & Hd). rewrite length_insert in Hl.
    assert (Hv : values' !! col_idx = Some v').
    { rewrite <- (lookup_take_lt values' (S col_idx)) by lia.
      rewrite Ht, lookup_take_lt by lia.
      apply list_lookup_insert_eq. lia. }
    split; [exact Hl|]. split.
    + apply (f_equal (take col_idx)) in Ht.
      rewrite !take_take, Nat.min_l in Ht by lia.
      rewrite Ht. apply take_insert_ge. lia.
    + rewrite (drop_S _ _ _ Hv). cbn [zip_with concat].
      rewrite <- app_assoc, <- Hd. exact Ed.
Qed.

Lemma Deserialize_rows_sound (n : nat) :
  forall (b b' : Block) (data rest : bytes),
    Deserialize_rows' YQL_CLIENT_CQL n b data = Returns (OK, b', rest) ->
    exists new : list Row,
      rows_ b' = rows_ b ++ new
      /\ length new = n
      /\ Forall row_inv new
      /\ data = rows_encoding QLValue_encode YQL_CLIENT_CQL new ++ rest.
Proof.
  induction n as [|n IH]; intros b b' data rest H.
  - cbn in H. inversion H; subst. exists []. rewrite app_nil_r.
    repeat split. constructor.
  - rewrite Deserialize_rows_S in H.
    unfold QLRow_Deserialize, QLRow_new in H. cbn [row_schema_ values_] in H.
    destruct (QLRow_Deserialize_from QLValue_Deserialize YQL_CLIENT_CQL
                (schema_ b) 0
                (replicate (num_columns (schema_ b)) QLValue_default) data)
      as [[[s1 values'] d1]|f] eqn:E; [|discriminate].
    cbn [obind fst snd] in H.
    destruct s1 as [|code msg]; cbn [status_ok] in H;
      [|inversion H].
    apply QLRow_Deserialize_from_sound in E;
      [|rewrite length_replicate; unfold num_columns; lia].
    destruct E as (Hl & _ & Hd). rewrite drop_0 in Hd.
    rewrite length_replicate in Hl.
    apply IH in H. cbn [rows_] in H.
    destruct H as (new & Hr & Hn & Hinv & Hd1).
    exists ({| row_schema_ := schema_ b; values_ := values' |} :: new).
    split; [rewrite Hr, <- app_assoc; reflexivity|].
    split; [cbn; rewrite Hn; reflexivity|].
    split; [constructor; [exact Hl|exact Hinv]|].
    unfold rows_encoding in *. cbn [map concat].
    unfold row_encoding at 1. cbn [row_schema_ values_].
    rewrite <- app_assoc, <- Hd1. exact Hd.
Qed.

(** X12.  With a value codec whose decoder takes from the cursor the
    encoding of the value it returns: a buffer that [Deserialize] accepts
    into a fresh block and whose prefix decodes to a count that is not
    negative is, byte for byte, what [Serialize] returns for the block
    that was decoded. *)
Theorem Serialize_of_accepted_buffer
    (schema : Schema DataType) (data : bytes) (count : Z) (rest : bytes)
    (b' : Block) (data' : bytes) :
  CQLDecodeNum data 0 = (OK, count, rest) ->
  0 <= count ->
  Deserialize' YQL_CLIENT_CQL (QLRowBlock_new schema) data
  = Returns (OK, b', data') ->
  Serialize' YQL_CLIENT_CQL b' [] = Returns data.
Proof.
  intros E0 Hpos H.
  rewrite (Deserialize_after_prefix _ _ _ _ _ data count rest E0) in H.
  destruct (Deserialize_rows' YQL_CLIENT_CQL (Z.to_nat count)
              (QLRowBlock_new schema) rest)
    as [[[s1 b1] d1]|f] eqn:E1; [|discriminate].
  cbn [obind fst snd] in H.
  destruct s1 as [|code msg]; cbn [status_ok] in H; [|inversion H].
  destruct d1 as [|x d1]; inversion H; subst b1 data'.
  apply Deserialize_rows_sound in E1. cbn [rows_ QLRowBlock_new app] in E1.
  destruct E1 as (new & Hr & Hn & Hinv & Hd).
  rewrite app_nil_r in Hd.
  rewrite (Serialize_spec _ _ QLValue_encode b' [])
    by (rewrite Hr; exact Hinv).
  rewrite Hr, Hn, Z2Nat.id by exact Hpos.
  destruct (CQLDecodeNum_ok _ _ _ _ _ E0 eq_refl) as (_ & Hrange & _).
  rewrite to_int32_id by exact Hrange.
  rewrite <- Hd. cbn [app].
  rewrite <- (CQLDecodeNum_canonical _ _ _ _ E0). reflexivity.
Qed.

End Canonical.

(** ** Printing *)

Lemma string_app_assoc (a b c : string) :
  ((a ++ b) ++ c = a ++ (b ++ c))%string.
Proof.
  induction a as [|x a IH]; [reflexivity|]. cbn. rewrite IH. reflexivity.
Qed.

Lemma string_app_nil_r (a : string) : (a ++ EmptyString = a)%string.
Proof.
  induction a as [|x a IH]; [reflexivity|]. cbn. rewrite IH. reflexivity.
Qed.

(** An item followed by the others, each behind a separator, is the items
    joined by the separator. *)
Lemma concat_separated (sep first : string) (others : list string) :
  (first ++ fold_right (fun t acc => sep ++ t ++ acc) EmptyString others)%string
  = String.concat sep (first :: others).
Proof.
  revert first. induction others as [|t others IH]; intros first.
  - cbn. apply string_app_nil_r.
  - cbn [fold_right String.concat]. rewrite IH. reflexivity.
Qed.

Section PrintingFacts.

Variable DataType : Type.
Variable QLValue : Type.
Variable QLValue_ToString : QLValue -> string.

Abbreviation Row := (QLRow DataType QLValue).
Abbreviation Block := (QLRowBlock DataType QLValue).

(** Behind the first column the loop of [QLRow::ToString] puts a
    separator in front of every value. *)
Lemma QLRow_ToString_from_later (cols : list (ColumnSchema DataType)) :
  forall (col_idx : nat) (values : list QLValue) (s : string),
    (0 < col_idx)%nat ->
    (length cols <= length (drop col_idx values))%nat ->
    QLRow_ToString_from QLValue_ToString cols col_idx values s
    = Returns
        (s ++ fold_right (fun t acc => ", " ++ t ++ acc) EmptyString
                (map QLValue_ToString
                   (take (length cols) (drop col_idx values))))%string.
Proof.
  induction cols as [|c cols IH]; intros col_idx values s Hpos Hlen.
  - cbn. rewrite string_app_nil_r. reflexivity.
  - cbn [QLRow_ToString_from length] in Hlen |- *.
    destruct (Nat.ltb_spec 0 col_idx) as [_|Hle]; [|lia].
    destruct (values !! col_idx) as [v|] eqn:E.
    + rewrite (drop_S _ _ _ E) in Hlen |- *. cbn [length] in Hlen.
      rewrite IH by lia. cbn [take map fold_right].
      rewrite !string_app_assoc. reflexivity.
    + apply lookup_ge_None in E. rewrite drop_ge in Hlen by lia.
      cbn in Hlen. lia.
Qed.

Lemma QLRow_ToString_spec (row : Row) :
  row_inv row ->
  QLRow_ToString QLValue_ToString row
  = Returns ("{ " ++ String.concat ", " (map QLValue_ToString (values_ row))
             ++ " }")%string.
Proof.
  unfold row_inv, num_columns, QLRow_ToString.
  destruct row as [cols values]. cbn [row_schema_ values_]. intros Hinv.
  destruct cols as [|c cols]; destruct values as [|v values];
    try discriminate Hinv.
  - reflexivity.
  - cbn [QLRow_ToString_from Nat.ltb Nat.leb lookup list_lookup].
    cbn [length] in Hinv.
    change (S 0) with (1%nat).
    rewrite QLRow_ToString_from_later
      by (change (drop 1 (v :: values)) with values; lia).
    change (drop 1 (v :: values)) with values. cbn [obind]. replace (length cols) with (length values) by lia.
    rewrite firstn_all.
    rewrite (string_app_assoc "{ "), concat_separated.
    rewrite string_app_assoc. reflexivity.
Qed.

(** X13.  For a row that keeps the class invariant, [QLRow::ToString]
    returns an opening brace and a blank, the printed values in column
    order joined by a comma and a blank, and a blank and a closing brace;
    for a row without columns that is the two braces around two
    blanks. *)
Theorem QLRow_ToString_joined (row : Row) :
  row_inv row ->
  QLRow_ToString QLValue_ToString row
  = Returns ("{ " ++ String.concat ", " (map QLValue_ToString (values_ row))
             ++ " }")%string
  /\ (values_ row = [] ->
      QLRow_ToString QLValue_ToString row = Returns "{  }"%string).
Proof.
  intros Hinv. split; [exact (QLRow_ToString_spec row Hinv)|].
  intros Hnil. rewrite (QLRow_ToString_spec row Hinv), Hnil. reflexivity.
Qed.

(** What [QLRow::ToString] returns for a row that keeps the class
    invariant. *)
Abbreviation row_string row :=
  ("{ " ++ String.concat ", " (map QLValue_ToString (values_ row)) ++ " }")%string.

Lemma QLRowBlock_ToString_from_later (rows : list Row) :
  Forall row_inv rows ->
  forall (i : nat) (s : string),
    (0 < i)%nat ->
    QLRowBlock_ToString_from QLValue_ToString rows i s
    = Returns
        (s ++ fold_right (fun t acc => ", " ++ t ++ acc) EmptyString
                (map (fun row : Row => row_string row) rows))%string.
Proof.
  induction 1 as [|row rows Hrow _ IH]; intros i s Hpos.
  - cbn. rewrite string_app_nil_r. reflexivity.
  - cbn [QLRowBlock_ToString_from].
    destruct (Nat.ltb_spec 0 i) as [_|Hle]; [|lia].
    rewrite (QLRow_ToString_spec row Hrow). cbn [obind].
    rewrite IH by lia. cbn [map fold_right].
    rewrite !string_app_assoc. reflexivity.
Qed.

(** X14.  For a block whose rows keep the class invariant,
    [QLRowBlock::ToString] returns an opening brace and a blank, the
    printed rows in block order joined by a comma and a blank, and a
    blank and a closing brace. *)
Theorem QLRowBlock_ToString_joined (b : Block) :
  Forall row_inv (rows_ b) ->
  QLRowBlock_ToString QLValue_ToString b
  = Returns ("{ "
             ++ String.concat ", "
                  (map (fun row : Row =>
                          "{ "
                          ++ String.concat ", "
                               (map QLValue_ToString (values_ row))
                          ++ " }")
                     (rows_ b))
             ++ " }")%string.
Proof.
  unfold QLRowBlock_ToString. intros Hinv.
  destruct (rows_ b) as [|row rows]; [reflexivity|].
  inversion Hinv as [|? ? Hrow Hrows]; subst.
  cbn [QLRowBlock_ToString_from Nat.ltb Nat.leb].
  rewrite (QLRow_ToString_spec row Hrow). cbn [obind].
  rewrite (QLRowBlock_ToString_from_later rows Hrows) by lia.
  cbn [obind map].
  rewrite (string_app_assoc "{ " (row_string row)), concat_separated.
  rewrite string_app_assoc. reflexivity.
Qed.

End PrintingFacts.

(** ** The row count as [GetRowCount] reports it *)

(** X15.  Once the prefix decodes, [GetRowCount] returns OK with the
    count itself when it is not negative, and with the count plus 2^64
    when it is negative: the [int32_t] is stored into the [size_t]
    without a test of its sign. *)
Theorem GetRowCount_value
    (data : bytes) (count : Z) (rest : bytes) (count0 : Z) :
  CQLDecodeNum data 0 = (OK, count, rest) ->
  GetRowCount YQL_CLIENT_CQL data count0
  = Returns (OK, if count <? 0 then count + 2 ^ 64 else count).
Proof.
  intros E. unfold GetRowCount. cbn [CHECK_EQ_CQL is_cql obind].
  rewrite E. cbn [status_ok].
  destruct (CQLDecodeNum_ok _ _ _ _ _ E eq_refl) as (_ & Hrange & _).
  unfold INT32_MIN, INT32_MAX in Hrange. unfold to_size_t.
  change (2 ^ 64) with 18446744073709551616.
  do 2 f_equal.
  destruct (Z.ltb_spec count 0); Z.div_mod_to_equations; lia.
Qed.

Lemma GetRowCount_value_witness :
  CQLDecodeNum [xff; xff; xff; xfe; x07] 0 = (OK, -2, [x07])
  /\ GetRowCount YQL_CLIENT_CQL [xff; xff; xff; xfe; x07] 0
     = Returns (OK, 18446744073709551614).
Proof.
  split; [reflexivity|].
  exact (GetRowCount_value [xff; xff; xff; xfe; x07] (-2) [x07] 0 eq_refl).
Defined.

(** ** The further statements on concrete buffers *)

Lemma Sample_decode_sound
    (t : Sample.DataType) (old v : Sample.QLValue) (data rest : bytes) :
  Sample.QLValue_Deserialize t YQL_CLIENT_CQL old data = (OK, v, rest) ->
  data = Sample.QLValue_encode t YQL_CLIENT_CQL v ++ rest.
Proof.
  unfold Sample.QLValue_Deserialize.
  destruct data as [|x data]; [discriminate|].
  destruct x; try discriminate.
  - intros H. inversion H; subst. reflexivity.
  - destruct data as [|b data]; [discriminate|].
    intros H. inversion H; subst. reflexivity.
Qed.

(** The count 2, the row [(5, null)] and the first byte of a second
    row. *)
Lemma Sample_truncated :
  Sample.Deserialize YQL_CLIENT_CQL
    (Sample.block Sample.two_columns Sample.rows_23)
    [x00; x00; x00; x02; x01; x05; x00; x01]
  = Returns (Error MalformedInput "Malformed value",
             Sample.block Sample.two_columns
               (Sample.rows_23
                ++ [Sample.row Sample.two_columns [Some x05; None];
                    Sample.row Sample.two_columns [None; None]]),
             [x01]).
Proof. reflexivity. Defined.

Lemma Deserialize_append_only_witness :
  Sample.two_columns = Sample.two_columns
  /\ (exists new : list (QLRow Sample.DataType Sample.QLValue),
        Sample.rows_23
        ++ [Sample.row Sample.two_columns [Some x05; None];
            Sample.row Sample.two_columns [None; None]]
        = Sample.rows_23 ++ new
        /\ Forall (made_for Sample.two_columns) new)
  /\ (block_inv (Sample.block Sample.two_columns Sample.rows_23) ->
      block_inv
        (Sample.block Sample.two_columns
           (Sample.rows_23
            ++ [Sample.row Sample.two_columns [Some x05; None];
                Sample.row Sample.two_columns [None; None]]))).
Proof.
  exact (Deserialize_append_only _ _ Sample.QLValue_default
           Sample.QLValue_Deserialize YQL_CLIENT_CQL
           (Sample.block Sample.two_columns Sample.rows_23)
           [x00; x00; x00; x02; x01; x05; x00; x01]
           (Error MalformedInput "Malformed value")
           (Sample.block Sample.two_columns
              (Sample.rows_23
               ++ [Sample.row Sample.two_columns [Some x05; None];
                   Sample.row Sample.two_columns [None; None]]))
           [x01] Sample_truncated).
Defined.

Lemma Deserialize_error_leaves_rows_witness :
  exists new : list (QLRow Sample.DataType Sample.QLValue),
    Sample.rows_23
    ++ [Sample.row Sample.two_columns [Some x05; None];
        Sample.row Sample.two_columns [None; None]]
    = Sample.rows_23 ++ new
    /\ (1 <= length new <= Z.to_nat 2)%nat.
Proof.
  apply (Deserialize_error_leaves_rows _ _ Sample.QLValue_default
           Sample.QLValue_Deserialize
           (Sample.block Sample.two_columns Sample.rows_23)
           [x00; x00; x00; x02; x01; x05; x00; x01] 2
           [x01; x05; x00; x01]
           (Error MalformedInput "Malformed value")
           (Sample.block Sample.two_columns
              (Sample.rows_23
               ++ [Sample.row Sample.two_columns [Some x05; None];
                   Sample.row Sample.two_columns [None; None]]))
           [x01]).
  - reflexivity.
  - lia.
  - exact Sample_truncated.
  - discriminate.
Defined.

Lemma Deserialize_unchanged_iff_witness :
  Sample.block Sample.two_columns Sample.rows_23
  = Sample.block Sample.two_columns Sample.rows_23
  <-> (status_ok (CQLDecodeNum [xff; xff; xff; xfe; x07] 0).1.1 = false
       \/ (CQLDecodeNum [xff; xff; xff; xfe; x07] 0).1.2 <= 0).
Proof.
  apply (Deserialize_unchanged_iff _ _ Sample.QLValue_default
           Sample.QLValue_Deserialize
           (Sample.block Sample.two_columns Sample.rows_23)
           [xff; xff; xff; xfe; x07]
           (Error Corruption "Extra data at the end of row block")
           (Sample.block Sample.two_columns Sample.rows_23) [x07]).
  reflexivity.
Defined.

Lemma Sample_rows_inv :
  Forall row_inv Sample.rows_5n_79 /\ Forall row_inv Sample.rows_23.
Proof.
  split; repeat constructor.
Defined.

Lemma AppendRowsData_is_Serialize_of_concat_witness :
  exists A C M : bytes,
    Sample.Serialize YQL_CLIENT_CQL
      (Sample.block Sample.two_columns Sample.rows_23) [] = Returns A
    /\ Sample.Serialize YQL_CLIENT_CQL
         (Sample.block Sample.two_columns Sample.rows_5n_79) [] = Returns C
    /\ Sample.Serialize YQL_CLIENT_CQL
         (Sample.block Sample.two_columns
            (Sample.rows_5n_79 ++ Sample.rows_23)) [] = Returns M
    /\ AppendRowsData YQL_CLIENT_CQL A C = Returns (OK, M).
Proof.
  apply (AppendRowsData_is_Serialize_of_concat _ _ Sample.QLValue_encode
           (Sample.block Sample.two_columns Sample.rows_23)
           (Sample.block Sample.two_columns Sample.rows_5n_79)
           (proj2 Sample_rows_inv) (proj1 Sample_rows_inv)).
  - cbn. lia.
  - cbn. lia.
  - unfold INT32_MAX. cbn. lia.
Defined.

Lemma GetRowCount_of_Serialize_witness :
  exists out : bytes,
    Sample.Serialize YQL_CLIENT_CQL
      (Sample.block Sample.two_columns Sample.rows_5n_79) [] = Returns out
    /\ GetRowCount YQL_CLIENT_CQL out 0 = Returns (OK, 2).
Proof.
  apply (GetRowCount_of_Serialize _ _ Sample.QLValue_encode
           (Sample.block Sample.two_columns Sample.rows_5n_79) 0
           (proj1 Sample_rows_inv)).
  unfold INT32_MAX. cbn. lia.
Defined.

Lemma Serialize_of_accepted_buffer_witness :
  Sample.Deserialize YQL_CLIENT_CQL (QLRowBlock_new Sample.two_columns)
    Sample.encoded_5n_79
  = Returns (OK, Sample.block Sample.two_columns Sample.rows_5n_79, [])
  /\ Sample.Serialize YQL_CLIENT_CQL
       (Sample.block Sample.two_columns Sample.rows_5n_79) []
     = Returns Sample.encoded_5n_79.
Proof.
  split; [reflexivity|].
  apply (Serialize_of_accepted_buffer _ _ Sample.QLValue_default
           Sample.QLValue_encode Sample.QLValue_Deserialize
           Sample_decode_sound Sample.two_columns Sample.encoded_5n_79 2
           [x01; x05; x00; x01; x07; x01; x09]
           (Sample.block Sample.two_columns Sample.rows_5n_79) []).
  - reflexivity.
  - lia.
  - reflexivity.
Defined.

Lemma QLRow_ToString_joined_witness :
  row_inv (Sample.row Sample.two_columns [Some x41; None])
  /\ QLRow_ToString Sample.QLValue_ToString
       (Sample.row Sample.two_columns [Some x41; None])
     = Returns "{ A, null }"%string.
Proof.
  split; [reflexivity|].
  exact (proj1 (QLRow_ToString_joined _ _ Sample.QLValue_ToString
                  (Sample.row Sample.two_columns [Some x41; None]) eq_refl)).
Defined.

Lemma QLRowBlock_ToString_joined_witness :
  QLRowBlock_ToString Sample.QLValue_ToString
    (Sample.block Sample.two_columns
       [Sample.row Sample.two_columns [Some x41; None];
        Sample.row Sample.two_columns [Some x42; Some x43]])
  = Returns "{ { A, null }, { B, C } }"%string.
Proof.
  apply (QLRowBlock_ToString_joined _ _ Sample.QLValue_ToString
           (Sample.block Sample.two_columns
              [Sample.row Sample.two_columns [Some x41; None];
               Sample.row Sample.two_columns [Some x42; Some x43]])).
  repeat constructor.
Defined.

(** * Call home: the assembly of the report *)

Section CallHomeFacts.

Variable level_le : CollectionLevel -> CollectionLevel -> bool.

(** Whether [Run] lets the collector collect at [level]. *)
Abbreviation runs level c :=
  ((ServerType_eqb (collector_type c) ServerType_ALL
    || ServerType_eqb (collector_type c) (server_type_ c))
   && level_le (collection_level c) level).

(** What the collectors that run at [level] leave in [json_], the empty
    strings left out. *)
Abbreviation fragments level collectors :=
  (List.filter (fun j => negb (string_empty j))
     (map (fun c : Collector => Collect c level EmptyString)
        (List.filter (fun c : Collector => runs level c) collectors))).

Lemma Run_spec (c : Collector) (level : CollectionLevel) :
  Run level_le c level
  = (runs level c,
     set_json c (if runs level c then Collect c level EmptyString
                 else EmptyString)).
Proof.
  unfold Run, set_json. cbn [collector_type server_type_ collection_level
    Collect json_].
  destruct (ServerType_eqb (collector_type c) ServerType_ALL
            || ServerType_eqb (collector_type c) (server_type_ c));
    cbn [andb]; [|reflexivity].
  destruct (level_le (collection_level c) level); reflexivity.
Qed.

Lemma fragments_cons (level : CollectionLevel) (c : Collector)
    (rest : list Collector) :
  fragments level (c :: rest)
  = if runs level c && negb (string_empty (Collect c level EmptyString))
    then Collect c level EmptyString :: fragments level rest
    else fragments level rest.
Proof.
  cbn [List.filter]. destruct (runs level c); [|reflexivity].
  cbn [map List.filter andb].
  destruct (string_empty (Collect c level EmptyString)); reflexivity.
Qed.

Lemma BuildJson_loop_collectors (level : CollectionLevel)
    (collectors : list Collector) :
  forall str comma : string,
    (BuildJson_loop level_le level collectors str comma).2
    = map (fun c => (Run level_le c level).2) collectors.
Proof.
  induction collectors as [|c rest IH]; intros str comma; [reflexivity|].
  cbn [BuildJson_loop map]. destruct (Run level_le c level) as [ran c'].
  destruct (ran && negb (string_empty (json_ c')));
    match goal with
    | |- context [BuildJson_loop level_le level rest ?s ?k] =>
        specialize (IH s k);
        destruct (BuildJson_loop level_le level rest s k) as [out rest']
    end; cbn [fst snd] in *; rewrite IH; reflexivity.
Qed.

Lemma BuildJson_loop_later (level : CollectionLevel)
    (collectors : list Collector) :
  forall str : string,
    (BuildJson_loop level_le level collectors str ",").1
    = (str ++ fold_right (fun t acc => "," ++ t ++ acc) EmptyString
                (fragments level collectors))%string.
Proof.
  induction collectors as [|c rest IH]; intros str.
  - cbn. rewrite string_app_nil_r. reflexivity.
  - cbn [BuildJson_loop]. rewrite Run_spec, fragments_cons.
    cbn [json_ set_json].
    destruct (runs level c); cbn [andb].
    + destruct (string_empty (Collect c level EmptyString)); cbn [negb].
      * specialize (IH str).
        destruct (BuildJson_loop level_le level rest str ",") as [out r'].
        exact IH.
      * specialize (IH ((str ++ ",") ++ Collect c level EmptyString)%string).
        destruct (BuildJson_loop level_le level rest _ ",") as [out r'].
        cbn [fst] in *. rewrite IH. cbn [fold_right].
        rewrite !string_app_assoc. reflexivity.
    + specialize (IH str).
      destruct (BuildJson_loop level_le level rest str ",") as [out r'].
      exact IH.
Qed.

Lemma BuildJson_loop_first (level : CollectionLevel)
    (collectors : list Collector) :
  forall str : string,
    (BuildJson_loop level_le level collectors str EmptyString).1
    = (str ++ String.concat "," (fragments level collectors))%string.
Proof.
  induction collectors as [|c rest IH]; intros str.
  - cbn. rewrite string_app_nil_r. reflexivity.
  - cbn [BuildJson_loop]. rewrite Run_spec, fragments_cons.
    cbn [json_ set_json].
    destruct (runs level c); cbn [andb].
    + destruct (string_empty (Collect c level EmptyString)); cbn [negb].
      * specialize (IH str).
        destruct (BuildJson_loop level_le level rest str EmptyString)
          as [out r'].
        exact IH.
      * pose proof (BuildJson_loop_later level rest
                      ((str ++ EmptyString)
                       ++ Collect c level EmptyString)%string) as H.
        destruct (BuildJson_loop level_le level rest _ ",") as [out r'].
        cbn [fst] in *. rewrite H, string_app_nil_r, string_app_assoc.
        rewrite concat_separated. reflexivity.
    + specialize (IH str).
      destruct (BuildJson_loop level_le level rest str EmptyString)
        as [out r'].
      exact IH.
Qed.

(** X16.  The string that [BuildJson] hands to the JSON reader is an
    opening brace, the non-empty [json_] of the collectors that [Run]
    lets collect at the level of the flag, in the order of the
    collectors and joined by single commas, and a closing brace; a
    collector that does not run or leaves [json_] empty puts in neither a
    fragment nor a comma.  Every collector has then been run once. *)
Theorem BuildJson_str_joined (flag : string) (collectors : list Collector) :
  let level := GetCollectionLevel flag in
  BuildJson_str level_le flag collectors
  = (("{" ++ String.concat "," (fragments level collectors) ++ "}")%string,
     map (fun c => (Run level_le c level).2) collectors).
Proof.
  intros level. unfold BuildJson_str. fold level.
  pose proof (BuildJson_loop_first level collectors "{") as H1.
  pose proof (BuildJson_loop_collectors level collectors "{" EmptyString)
    as H2.
  destruct (BuildJson_loop level_le level collectors "{" EmptyString)
    as [str collectors'].
  cbn [fst snd] in H1, H2. rewrite H1, H2, string_app_assoc. reflexivity.
Qed.

End CallHomeFacts.

(** X17.  [GetCollectionLevel] gives HIGH for the flag value [high] and
    for no other, MEDIUM for [medium] and for no other, and LOW for
    every other value, [low] or not; it never gives ALL. *)
Theorem GetCollectionLevel_cases (flag : string) :
  (GetCollectionLevel flag = HIGH <-> flag = "high"%string)
  /\ (GetCollectionLevel flag = MEDIUM <-> flag = "medium"%string)
  /\ (GetCollectionLevel flag = LOW <->
      flag <> "high"%string /\ flag <> "medium"%string)
  /\ GetCollectionLevel flag <> CollectionLevel_ALL.
Proof.
  unfold GetCollectionLevel.
  destruct (String.eqb_spec flag "high") as [->|Hh].
  - cbn. repeat split; try discriminate; try congruence.
    intros [H _]. congruence.
  - destruct (String.eqb_spec flag "medium") as [->|Hm].
    + cbn. repeat split; try discriminate; try congruence.
      intros [_ H]. congruence.
    + destruct (flag =? "low")%string;
        repeat split; try discriminate; try congruence; auto.
Qed.

(** The pattern of [AppendPairToJson] never gives the empty string. *)
Lemma Substitute_pair_not_empty (key value : string) :
  string_empty (Substitute_pair key value) = false.
Proof. reflexivity. Qed.

Lemma AppendPairToJson_not_empty (key value out : string) :
  string_empty (AppendPairToJson key value out) = false.
Proof.
  unfold AppendPairToJson.
  destruct out as [|x out]; reflexivity.
Qed.

Lemma AppendPairToJson_fold_later (pairs : list (string * string)) :
  forall out : string,
    string_empty out = false ->
    fold_left (fun acc kv => AppendPairToJson kv.1 kv.2 acc) pairs out
    = (out ++ fold_right (fun t acc => "," ++ t ++ acc) EmptyString
                (map (fun kv => Substitute_pair kv.1 kv.2) pairs))%string.
Proof.
  induction pairs as [|[k v] pairs IH]; intros out Hne.
  - cbn. rewrite string_app_nil_r. reflexivity.
  - cbn [fold_left map fold_right fst snd].
    rewrite IH by apply AppendPairToJson_not_empty.
    unfold AppendPairToJson. rewrite Hne. cbn [negb].
    rewrite !string_app_assoc. reflexivity.
Qed.

(** X18.  Appending pairs to an empty string with [AppendPairToJson], one
    call after the other, gives the pairs in the order of the calls,
    each as the key and the value between double quotes around a colon,
    joined by single commas: no comma in front of the first pair and
    none behind the last. *)
Theorem AppendPairToJson_joined (pairs : list (string * string)) :
  fold_left (fun acc kv => AppendPairToJson kv.1 kv.2 acc) pairs EmptyString
  = String.concat "," (map (fun kv => Substitute_pair kv.1 kv.2) pairs).
Proof.
  destruct pairs as [|[k v] pairs]; [reflexivity|].
  cbn [fold_left map fst snd].
  rewrite AppendPairToJson_fold_later by apply AppendPairToJson_not_empty.
  unfold AppendPairToJson. cbn [string_empty negb].
  change (EmptyString ++ Substitute_pair k v)%string
    with (Substitute_pair k v).
  apply concat_separated.
Qed.

(** * Rows and pages, with a value codec that decodes what it encodes *)

Section Pages.

Variable DataType : Type.
Variable QLValue : Type.
Variable QLValue_default : QLValue.
Variable QLValue_encode : DataType -> QLClient -> QLValue -> bytes.
Variable QLValue_Deserialize :
  DataType -> QLClient -> QLValue -> bytes -> Status * QLValue * bytes.
Variable value_ok : DataType -> QLValue -> Prop.

Hypothesis decode_encode :
  forall (t : DataType) (v old : QLValue) (rest : bytes),
    value_ok t v ->
    QLValue_Deserialize t YQL_CLIENT_CQL old
      (QLValue_encode t YQL_CLIENT_CQL v ++ rest) = (OK, v, rest).

Abbreviation Row := (QLRow DataType QLValue).
Abbreviation Deserialize' := (Deserialize QLValue_default QLValue_Deserialize).
Abbreviation Serialize' := (Serialize QLValue_encode).

(** X19.  [QLRow::Deserialize] on what [QLRow::Serialize] appended for a
    valid row, into any row bound to the same schema that keeps the
    class invariant: the status is OK, every value of the target is
    overwritten so that the target becomes the row that was serialized,
    whatever it held before, and the bytes that follow are left in the
    cursor. *)
Theorem QLRow_Deserialize_Serialize (target row : Row) (rest : bytes) :
  row_inv target ->
  row_valid value_ok (row_schema_ target) row ->
  exists out : bytes,
    QLRow_Serialize QLValue_encode YQL_CLIENT_CQL row [] = Returns out
    /\ QLRow_Deserialize QLValue_Deserialize YQL_CLIENT_CQL target
         (out ++ rest)
       = Returns (OK, row, rest).
Proof.
  intros Hinv Hv.
  pose proof (row_valid_inv _ _ value_ok _ _ Hv) as Hrow.
  destruct Hv as [Hs Hv]. destruct row as [rs vs]. cbn in Hs, Hv. subst rs.
  eexists. split; [apply QLRow_Serialize_spec; exact Hrow|].
  cbn [app]. unfold row_encoding, QLRow_Deserialize.
  cbn [row_schema_ values_].
  unfold row_inv, num_columns in Hinv.
  rewrite (QLRow_Deserialize_from_encode _ _ QLValue_encode
             QLValue_Deserialize value_ok decode_encode _ _ Hv)
    by lia.
  cbn [obind]. rewrite take_0, drop_ge by lia.
  rewrite app_nil_r. reflexivity.
Qed.

(** X20.  Merging two pages and decoding the result is decoding the
    pages one after the other: for valid rows on one schema, [a > 0] in
    the one block and [c > 0] in the other with [a + c <= 2^31 - 1],
    [Deserialize] of the merged destination into a fresh block returns
    the block that [Deserialize] of the destination's encoding and then
    of the source's encoding, into the same block, returns. *)
Theorem Deserialize_merged_is_sequential
    (schema : Schema DataType) (rowsA rowsC : list Row) :
  Forall (row_valid value_ok schema) rowsA ->
  Forall (row_valid value_ok schema) rowsC ->
  0 < Z.of_nat (length rowsA) ->
  0 < Z.of_nat (length rowsC) ->
  Z.of_nat (length rowsA) + Z.of_nat (length rowsC) <= INT32_MAX ->
  exists (A C M : bytes) (b1 b2 : QLRowBlock DataType QLValue),
    Serialize' YQL_CLIENT_CQL {| schema_ := schema; rows_ := rowsA |} []
    = Returns A
    /\ Serialize' YQL_CLIENT_CQL {| schema_ := schema; rows_ := rowsC |} []
       = Returns C
    /\ AppendRowsData YQL_CLIENT_CQL A C = Returns (OK, M)
    /\ Deserialize' YQL_CLIENT_CQL (QLRowBlock_new schema) C
       = Returns (OK, b1, [])
    /\ Deserialize' YQL_CLIENT_CQL b1 A = Returns (OK, b2, [])
    /\ Deserialize' YQL_CLIENT_CQL (QLRowBlock_new schema) M
       = Returns (OK, b2, []).
Proof.
  intros HvA HvC HposA HposC Hfit.
  assert (HfitA : Z.of_nat (length rowsA) <= INT32_MAX) by lia.
  assert (HfitC : Z.of_nat (length rowsC) <= INT32_MAX) by lia.
  destruct (count_fits _ HfitA) as [HuA _].
  destruct (count_fits _ HfitC) as [HuC _].
  pose proof (Serialize_spec _ _ QLValue_encode
                {| schema_ := schema; rows_ := rowsA |} []
                (rows_valid_inv _ _ value_ok _ _ HvA)) as HSA.
  pose proof (Serialize_spec _ _ QLValue_encode
                {| schema_ := schema; rows_ := rowsC |} []
                (rows_valid_inv _ _ value_ok _ _ HvC)) as HSC.
  cbn [rows_ app] in HSA, HSC. rewrite HuA in HSA. rewrite HuC in HSC.
  destruct (Deserialize_encoding_then _ _ QLValue_default QLValue_encode
              QLValue_Deserialize value_ok decode_encode schema rowsC rowsA
              [] HvA HfitA) as (A' & HSA' & HDA).
  rewrite HSA in HSA'. inversion HSA'; subst A'. clear HSA'.
  rewrite app_nil_r in HDA.
  eexists _, _, _, {| schema_ := schema; rows_ := rowsC |},
          {| schema_ := schema; rows_ := rowsC ++ rowsA |}.
  split; [exact HSA|]. split; [exact HSC|].
  split.
  { apply (AppendRowsData_formula _ _ (Z.of_nat (length rowsA))
             (Z.of_nat (length rowsC))
             (rows_encoding QLValue_encode YQL_CLIENT_CQL rowsA)
             (rows_encoding QLValue_encode YQL_CLIENT_CQL rowsC));
      try lia; apply CQLDecodeNum_count; lia. }
  split.
  { apply (Deserialize_encoding _ _ QLValue_default QLValue_encode
             QLValue_Deserialize value_ok decode_encode schema rowsC HvC
             HfitC). }
  split; [exact HDA|].
  rewrite to_uint32_id by lia.
  replace (Z.of_nat (length rowsA) + Z.of_nat (length rowsC))
    with (Z.of_nat (length (rowsC ++ rowsA)))
    by (rewrite length_app; lia).
  rewrite <- rows_encoding_app.
  apply (Deserialize_encoding _ _ QLValue_default QLValue_encode
           QLValue_Deserialize value_ok decode_encode schema).
  - apply Forall_app. split; assumption.
  - rewrite length_app. lia.
Qed.

End Pages.

Lemma QLRow_Deserialize_Serialize_witness :
  exists out : bytes,
    QLRow_Serialize Sample.QLValue_encode YQL_CLIENT_CQL
      (Sample.row Sample.two_columns [Some x07; Some x09]) [] = Returns out
    /\ QLRow_Deserialize Sample.QLValue_Deserialize YQL_CLIENT_CQL
         (Sample.row Sample.two_columns [Some x05; None]) (out ++ [x2a])
       = Returns (OK, Sample.row Sample.two_columns [Some x07; Some x09],
                  [x2a]).
Proof.
  apply (QLRow_Deserialize_Serialize _ _ Sample.QLValue_encode
           Sample.QLValue_Deserialize Sample.value_ok Sample_decode_encode
           (Sample.row Sample.two_columns [Some x05; None])
           (Sample.row Sample.two_columns [Some x07; Some x09]) [x2a]).
  - reflexivity.
  - split; repeat constructor.
Defined.

Lemma Deserialize_merged_is_sequential_witness :
  exists (A C M : bytes)
         (b1 b2 : QLRowBlock Sample.DataType Sample.QLValue),
    Sample.Serialize YQL_CLIENT_CQL
      (Sample.block Sample.two_columns Sample.rows_23) [] = Returns A
    /\ Sample.Serialize YQL_CLIENT_CQL
         (Sample.block Sample.two_columns Sample.rows_5n_79) [] = Returns C
    /\ AppendRowsData YQL_CLIENT_CQL A C = Returns (OK, M)
    /\ Sample.Deserialize YQL_CLIENT_CQL (QLRowBlock_new Sample.two_columns)
         C = Returns (OK, b1, [])
    /\ Sample.Deserialize YQL_CLIENT_CQL b1 A = Returns (OK, b2, [])
    /\ Sample.Deserialize YQL_CLIENT_CQL (QLRowBlock_new Sample.two_columns)
         M = Returns (OK, b2, []).
Proof.
  apply (Deserialize_merged_is_sequential _ _ Sample.QLValue_default
           Sample.QLValue_encode Sample.QLValue_Deserialize Sample.value_ok
           Sample_decode_encode Sample.two_columns Sample.rows_23
           Sample.rows_5n_79
           (proj2 Sample_rows_valid) (proj1 Sample_rows_valid)).
  - cbn. lia.
  - cbn. lia.
  - unfold INT32_MAX. cbn. lia.
Defined.
